(** * Verification of the admission webhook's decision logic (main.go)

    The development embeds [handleAdmissionReview], [cleanupMetadata],
    [removeReconciledAt], [sendResponse] and [recordRequestDuration] of
    main.go, together with the parts of the Go runtime they rely on:
    the dynamically typed trees produced by [encoding/json],
    [reflect.DeepEqual] on such trees, and the two Prometheus vectors. *)

From Stdlib Require Import Ascii String QArith Qcanon.
From stdpp Require Import gmap strings list fin_maps numbers.

Local Open Scope string_scope.
Local Open Scope Z_scope.

(** ** Untyped JSON trees

    [json.Unmarshal] into [interface{}] yields [nil], [bool], [float64],
    [string], [[]interface{}] or [map[string]interface{}].  A [float64]
    read from JSON is finite, and Go's [==] on finite floats is equality of
    the numbers they denote, so [VNumber] carries the denoted rational. *)

#[warnings="-register-all"]
Inductive value : Type :=
  | VNull
  | VBool (b : bool)
  | VNumber (q : Qc)
  | VString (s : string)
  | VArray (l : list value)
  | VMap (m : gmap string value).

Global Instance value_eq_dec : EqDecision value.
Proof.
  refine (fix go (x y : value) {struct x} : Decision (x = y) :=
    let _ : EqDecision value := @go in
    match x, y with
    | VNull, VNull => left eq_refl
    | VBool a, VBool b => cast_if (decide (a = b))
    | VNumber a, VNumber b => cast_if (decide (a = b))
    | VString a, VString b => cast_if (decide (a = b))
    | VArray a, VArray b => cast_if (decide (a = b))
    | VMap a, VMap b => cast_if (decide (a = b))
    | _, _ => right _
    end); abstract congruence.
Defined.

(** Number of constructors of a tree: the measure for induction through
    the nested list and map. *)
Fixpoint value_size (v : value) : nat :=
  match v with
  | VArray l => S (foldr (λ x acc, value_size x + acc)%nat 0%nat l)
  | VMap m => S (map_fold (λ _ x acc, value_size x + acc)%nat 0%nat m)
  | _ => 1%nat
  end.

(** ** reflect.DeepEqual on JSON trees *)

Section containers.
Context {A : Type} (eqb : A → A → bool).

(** Slices: same length, then element by element, in order. *)
Fixpoint sliceEqual (l1 l2 : list A) : bool :=
  match l1, l2 with
  | [], [] => true
  | a :: l1, b :: l2 => eqb a b && sliceEqual l1 l2
  | _, _ => false
  end.

(** Maps: same number of keys, then every key of the first is a key of
    the second with an equal value. *)
Definition mapEqual (m1 m2 : gmap string A) : bool :=
  bool_decide (size m1 = size m2) &&
  map_fold (λ k v acc,
    acc && match m2 !! k with Some w => eqb v w | None => false end) true m1.
End containers.

Fixpoint deepEqual (x y : value) {struct x} : bool :=
  match x, y with
  | VNull, VNull => true
  | VBool a, VBool b => bool_decide (a = b)
  | VNumber a, VNumber b => bool_decide (a = b)
  | VString a, VString b => bool_decide (a = b)
  | VArray l1, VArray l2 => sliceEqual deepEqual l1 l2
  | VMap m1, VMap m2 => mapEqual deepEqual m1 m2
  | _, _ => false
  end.

(** ** The Kubernetes API types the handler touches

    Only the fields main.go reads or writes are carried; every other field
    of the Go structs keeps its zero value throughout the handler. *)

(** k8s.io/apimachinery/pkg/apis/meta/v1 *)
Record TypeMeta := {
  tm_Kind : string;
  tm_APIVersion : string;
}.

Record GroupVersionKind := {
  gvk_Group : string;
  gvk_Version : string;
  gvk_Kind : string;
}.

Record Status := {
  st_Status : string;
  st_Message : string;
  st_Code : Z;
}.

(** k8s.io/apimachinery/pkg/runtime *)
Record RawExtension := { Raw : string }.

(** k8s.io/api/admission/v1.  [Operation] is a Go string type: a decoded
    request may carry any string, the four constants are the known ones. *)
Module admissionv1.
Definition Create : string := "CREATE".
Definition Update : string := "UPDATE".
Definition Delete : string := "DELETE".
Definition Connect : string := "CONNECT".
End admissionv1.

Record AdmissionRequest := {
  req_UID : string;
  req_Kind : GroupVersionKind;
  req_Operation : string;
  req_OldObject : RawExtension;
  req_Object : RawExtension;
}.

Record AdmissionResponse := {
  resp_UID : string;
  resp_Allowed : bool;
  resp_Result : option Status;
}.

(** [Request] and [Response] are pointers: [None] is the nil pointer. *)
Record AdmissionReview := {
  rv_TypeMeta : TypeMeta;
  rv_Request : option AdmissionRequest;
  rv_Response : option AdmissionResponse;
}.

Global Instance TypeMeta_eq_dec : EqDecision TypeMeta.
Proof. solve_decision. Defined.
Global Instance GroupVersionKind_eq_dec : EqDecision GroupVersionKind.
Proof. solve_decision. Defined.
Global Instance Status_eq_dec : EqDecision Status.
Proof. solve_decision. Defined.
Global Instance RawExtension_eq_dec : EqDecision RawExtension.
Proof. solve_decision. Defined.
Global Instance AdmissionRequest_eq_dec : EqDecision AdmissionRequest.
Proof. solve_decision. Defined.
Global Instance AdmissionResponse_eq_dec : EqDecision AdmissionResponse.
Proof. solve_decision. Defined.
Global Instance AdmissionReview_eq_dec : EqDecision AdmissionReview.
Proof. solve_decision. Defined.

(** net/http *)
Module http.
Definition StatusOK : Z := 200.
Definition StatusBadRequest : Z := 400.
Definition StatusInternalServerError : Z := 500.
End http.

(** What one call of the handler leaves on the [http.ResponseWriter]:
    - [HttpError msg code]: [http.Error(w, msg, code)];
    - [HttpOK review]: [sendResponse(w, review)], which writes the marshalled
      review with the implicit status 200;
    - [Panic]: the handler dereferenced a nil pointer and wrote nothing. *)
Inductive Outcome :=
  | HttpError (msg : string) (code : Z)
  | HttpOK (review : AdmissionReview)
  | Panic.

Global Instance Outcome_eq_dec : EqDecision Outcome.
Proof. solve_decision. Defined.

(** ** encoding/json

    The decoder is library code; the handler is embedded over any decoder.
    [None] stands for a non-nil [err].
    - [unmarshalReview body] is [json.Unmarshal(body, &admissionReviewReq)];
    - [unmarshalObject raw] is [json.Unmarshal(raw, &obj)] for
      [obj : map[string]interface{}]. *)
Class Unmarshal := {
  unmarshalReview : string → option AdmissionReview;
  unmarshalObject : string → option (gmap string value);
}.

(** ** Prometheus vectors, indexed by the value of the label "change"

    [processedTotal] holds the count of each label; [requestDuration] holds
    the observations of each label, in seconds. *)
Record Metrics := {
  requestDuration : gmap string (list Qc);
  processedTotal : gmap string nat;
}.

Definition noMetrics : Metrics :=
  {| requestDuration := ∅; processedTotal := ∅ |}.

(** The reading of [processedTotal.WithLabelValues(label)]. *)
Definition counter (ms : Metrics) (label : string) : nat :=
  default 0%nat (processedTotal ms !! label).

(** [processedTotal.WithLabelValues(label).Inc()] *)
Definition Inc (label : string) (ms : Metrics) : Metrics :=
  {| requestDuration := requestDuration ms;
     processedTotal := <[label := S (counter ms label)]> (processedTotal ms) |}.

(** [requestDuration.WithLabelValues(label).Observe(d)] *)
Definition Observe (label : string) (d : Qc) (ms : Metrics) : Metrics :=
  {| requestDuration :=
       <[label := (default [] (requestDuration ms !! label) ++ [d])%list]>
         (requestDuration ms);
     processedTotal := processedTotal ms |}.

(** ** main.go *)

(** [obj[key]] on a [map[string]interface{}]: the nil interface when the
    key is absent; a JSON null is stored as the nil interface as well. *)
Definition index (obj : gmap string value) (key : string) : value :=
  default VNull (obj !! key).

(** The nested map is mutated in place; the tree reachable from [obj]
    afterwards is [obj] with the updated map under "metadata". *)
Definition cleanupMetadata (obj : gmap string value) : gmap string value :=
  match index obj "metadata" with
  | VMap metadata =>
      <["metadata" :=
          VMap (delete "generation" (delete "managedFields" metadata))]> obj
  | _ => obj
  end.

Definition removeReconciledAt (obj : gmap string value) : gmap string value :=
  match index obj "status" with
  | VMap status => <["status" := VMap (delete "reconciledAt" status)]> obj
  | _ => obj
  end.

Definition sendResponse (admissionReviewResp : AdmissionReview) : Outcome :=
  HttpOK admissionReviewResp.

(** [elapsed] is [time.Since(start).Seconds()]. *)
Definition recordRequestDuration (status : string) (elapsed : Qc)
    (ms : Metrics) : Metrics :=
  Observe status elapsed ms.

(** [fmt.Sprintf("%t", b)] *)
Definition fmt_bool (b : bool) : string := if b then "true" else "false".

(** The default review of lines 72-81, with the given response. *)
Definition reviewWith (resp : AdmissionResponse) : AdmissionReview :=
  {| rv_TypeMeta := {| tm_Kind := "AdmissionReview";
                       tm_APIVersion := "admission.k8s.io/v1" |};
     rv_Request := None;
     rv_Response := Some resp |}.

Section handler.
Context `{Unmarshal}.

(** [body] is the result of [io.ReadAll(r.Body)], [None] on error.  The
    debug log lines ([log.Debug], [printDifferences]) write to the log only
    and are left out. *)
Definition handleAdmissionReview (body : option string) (elapsed : Qc)
    (ms : Metrics) : Outcome * Metrics :=
  match body with
  | None =>
      (HttpError "failed to read request body" http.StatusInternalServerError, ms)
  | Some body =>
  match unmarshalReview body with
  | None => (HttpError "failed to unmarshal request" http.StatusBadRequest, ms)
  | Some admissionReviewReq =>
  (* admissionReviewReq.Request.UID dereferences the Request pointer *)
  match rv_Request admissionReviewReq with
  | None => (Panic, ms)
  | Some request =>
  let response :=
    {| resp_UID := req_UID request; resp_Allowed := true; resp_Result := None |} in
  if bool_decide (req_Operation request ≠ admissionv1.Update)
     || bool_decide (gvk_Kind (req_Kind request) ≠ "Application")
  then (sendResponse (reviewWith response), ms)
  else
  match unmarshalObject (Raw (req_OldObject request)) with
  | None =>
      (HttpError "failed to parse old object" http.StatusInternalServerError, ms)
  | Some oldObj =>
  match unmarshalObject (Raw (req_Object request)) with
  | None =>
      (HttpError "failed to parse new object" http.StatusInternalServerError, ms)
  | Some newObj =>
  let oldObj := cleanupMetadata oldObj in
  let newObj := cleanupMetadata newObj in
  let oldObj := removeReconciledAt oldObj in
  let newObj := removeReconciledAt newObj in
  let metadataChanged :=
    negb (deepEqual (index oldObj "metadata") (index newObj "metadata")) in
  let specChanged :=
    negb (deepEqual (index oldObj "spec") (index newObj "spec")) in
  let statusChanged :=
    negb (deepEqual (index oldObj "status") (index newObj "status")) in
  let '(response, ms) :=
    if negb metadataChanged && negb specChanged && negb statusChanged
    then
      ({| resp_UID := resp_UID response;
          resp_Allowed := false;
          resp_Result := Some {| st_Status := "Success";
                                 st_Message := "Update successful.";
                                 st_Code := http.StatusOK |} |},
       Inc "false" ms)
    else
      ({| resp_UID := resp_UID response;
          resp_Allowed := true;
          resp_Result := resp_Result response |},
       Inc "true" ms) in
  (sendResponse (reviewWith response),
   recordRequestDuration
     (fmt_bool (metadataChanged || specChanged || statusChanged)) elapsed ms)
  end end end end end.

(** The server runs the handler once per inbound call.  The two vectors
    are the only state shared between calls and their updates are atomic,
    so a run is a sequence of calls threading the vectors. *)
Fixpoint serve (calls : list (option string * Qc)) (ms : Metrics)
    : list Outcome * Metrics :=
  match calls with
  | [] => ([], ms)
  | (body, elapsed) :: calls =>
      let '(out, ms) := handleAdmissionReview body elapsed ms in
      let '(outs, ms) := serve calls ms in
      (out :: outs, ms)
  end.
End handler.

(** ** A reference decoder

    An executable decoder for a fragment of JSON, used to run the handler
    on concrete bodies.  The fragment: null, true, false, integers of
    magnitude at most 2^53 written without fraction or exponent, strings of
    printable ASCII without escapes, arrays, and objects; an object decoded
    into a struct names each field at most once.  A text outside the
    fragment is refused. *)
Module refjson.

Definition quote : ascii := "034"%char.

Definition is_space (c : ascii) : bool :=
  ((c =? " ") || (c =? "009") || (c =? "010") || (c =? "013"))%char.

Definition is_digit (c : ascii) : bool :=
  ((48 <=? nat_of_ascii c) && (nat_of_ascii c <=? 57))%nat.

(** Printable ASCII other than the quote and the backslash. *)
Definition is_plain (c : ascii) : bool :=
  ((32 <=? nat_of_ascii c) && (nat_of_ascii c <=? 126))%nat
  && negb (c =? quote)%char && negb (c =? "\")%char.

Fixpoint skip_space (s : string) : string :=
  match s with
  | String c s' => if is_space c then skip_space s' else s
  | EmptyString => s
  end.

Fixpoint strip_prefix (p s : string) : option string :=
  match p, s with
  | EmptyString, _ => Some s
  | String a p, String b s => if (a =? b)%char then strip_prefix p s else None
  | _, _ => None
  end.

(** The text of a string literal, from just after its opening quote. *)
Fixpoint string_of (s : string) : option (string * string) :=
  match s with
  | EmptyString => None
  | String c s' =>
      if (c =? quote)%char then Some (EmptyString, s')
      else if is_plain c then
        '(lit, rest) ← string_of s'; Some (String c lit, rest)
      else None
  end.

Fixpoint digits_of (s : string) (acc : Z) : Z * string :=
  match s with
  | String c s' =>
      if is_digit c
      then digits_of s' (10 * acc + (Z.of_nat (nat_of_ascii c) - 48))
      else (acc, s)
  | EmptyString => (acc, s)
  end.

Definition number_of (s : string) : option (Z * string) :=
  let '(sign, s) :=
    match s with
    | String c s' => if (c =? "-")%char then (-1, s') else (1, s)
    | EmptyString => (1, s)
    end in
  match s with
  | String c s' =>
      if negb (is_digit c) then None
      else
        let '(n, rest) :=
          if (c =? "0")%char then (0, s') else digits_of s 0 in
        match rest with
        | String d _ =>
            if ((d =? ".") || (d =? "e") || (d =? "E"))%char then None
            else if n <=? 2 ^ 53 then Some (sign * n, rest) else None
        | EmptyString =>
            if n <=? 2 ^ 53 then Some (sign * n, rest) else None
        end
  | EmptyString => None
  end.

(** One JSON value at the head of [s], and the text after it. *)
Fixpoint value_of (fuel : nat) (s : string) : option (value * string) :=
  match fuel with
  | O => None
  | S fuel =>
      let s := skip_space s in
      match s with
      | EmptyString => None
      | String c rest =>
          if (c =? "n")%char then (λ r, (VNull, r)) <$> strip_prefix "ull" rest
          else if (c =? "t")%char then
            (λ r, (VBool true, r)) <$> strip_prefix "rue" rest
          else if (c =? "f")%char then
            (λ r, (VBool false, r)) <$> strip_prefix "alse" rest
          else if (c =? quote)%char then
            '(lit, r) ← string_of rest; Some (VString lit, r)
          else if (c =? "[")%char then
            match skip_space rest with
            | String "]"%char r => Some (VArray [], r)
            | _ => '(l, r) ← elements_of fuel rest; Some (VArray l, r)
            end
          else if (c =? "{")%char then
            match skip_space rest with
            | String "}"%char r => Some (VMap ∅, r)
            | _ => '(m, r) ← members_of fuel rest ∅; Some (VMap m, r)
            end
          else
            '(n, r) ← number_of s; Some (VNumber (Q2Qc (inject_Z n)), r)
      end
  end
with elements_of (fuel : nat) (s : string) : option (list value * string) :=
  match fuel with
  | O => None
  | S fuel =>
      '(v, r) ← value_of fuel s;
      match skip_space r with
      | String ","%char r' => '(l, r'') ← elements_of fuel r'; Some (v :: l, r'')
      | String "]"%char r' => Some ([v], r')
      | _ => None
      end
  end
(** A key met twice keeps its last value. *)
with members_of (fuel : nat) (s : string) (acc : gmap string value)
    : option (gmap string value * string) :=
  match fuel with
  | O => None
  | S fuel =>
      match skip_space s with
      | String c r =>
          if negb (c =? quote)%char then None
          else
            '(k, r) ← string_of r;
            match skip_space r with
            | String ":"%char r =>
                '(v, r) ← value_of fuel r;
                match skip_space r with
                | String ","%char r' => members_of fuel r' (<[k := v]> acc)
                | String "}"%char r' => Some (<[k := v]> acc, r')
                | _ => None
                end
            | _ => None
            end
      | EmptyString => None
      end
  end.

Definition enough (s : string) : nat := S (S (2 * String.length s)).

(** A whole text: one value, then only white space. *)
Definition parse (s : string) : option value :=
  '(v, rest) ← value_of (enough s) s;
  match skip_space rest with
  | EmptyString => Some v
  | _ => None
  end.

(** [json.Unmarshal] into a [map[string]interface{}]: an object fills the
    map, null leaves it nil (which indexes as the empty map), any other
    value is a type error. *)
Definition object_of (raw : string) : option (gmap string value) :=
  match parse raw with
  | Some (VMap m) => Some m
  | Some VNull => Some ∅
  | _ => None
  end.

(** The members of an object as written: each key with the text of its
    value.  [s] starts after the opening brace or after a comma. *)
Fixpoint fields_of (fuel : nat) (s : string) (acc : list (string * string))
    : option (list (string * string)) :=
  match fuel with
  | O => None
  | S fuel =>
      match skip_space s with
      | String c r =>
          if negb (c =? quote)%char then None
          else
            '(k, r) ← string_of r;
            match skip_space r with
            | String ":"%char r =>
                let r := skip_space r in
                '(_, r') ← value_of (enough r) r;
                let raw :=
                  substring 0 (String.length r - String.length r') r in
                match skip_space r' with
                | String ","%char r'' => fields_of fuel r'' (acc ++ [(k, raw)])%list
                | String "}"%char r'' =>
                    match skip_space r'' with
                    | EmptyString => Some (acc ++ [(k, raw)])%list
                    | _ => None
                    end
                | _ => None
                end
            | _ => None
            end
      | EmptyString => None
      end
  end.

(** The text of a struct: [Some None] for null, the members otherwise. *)
Definition struct_of (raw : string) : option (option (list (string * string))) :=
  match parse raw with
  | Some VNull => Some None
  | Some (VMap _) =>
      match skip_space raw with
      | String _ r =>
          match skip_space r with
          | String "}"%char _ => Some (Some [])
          | _ => Some <$> fields_of (enough raw) r []
          end
      | EmptyString => None
      end
  | _ => None
  end.

Definition lower (c : ascii) : ascii :=
  let n := nat_of_ascii c in
  if ((65 <=? n) && (n <=? 90))%nat then ascii_of_nat (n + 32) else c.

Fixpoint fold_case (s : string) : string :=
  match s with
  | String c s' => String (lower c) (fold_case s')
  | EmptyString => EmptyString
  end.

(** Keys match field names up to the case of letters.  [Some None]: the
    field is not named; [None]: it is named more than once. *)
Definition field (name : string) (fs : list (string * string))
    : option (option string) :=
  match filter (λ kv, fold_case kv.1 = fold_case name) fs with
  | [] => Some None
  | [kv] => Some (Some kv.2)
  | _ => None
  end.

(** A string field: null leaves the zero value. *)
Definition string_field (name : string) (fs : list (string * string))
    : option string :=
  raw ← field name fs;
  match raw with
  | None => Some EmptyString
  | Some raw =>
      match parse raw with
      | Some (VString s) => Some s
      | Some VNull => Some EmptyString
      | _ => None
      end
  end.

(** [RawExtension.UnmarshalJSON]: null leaves [Raw] empty, any other value
    is kept as written. *)
Definition raw_field (name : string) (fs : list (string * string))
    : option RawExtension :=
  raw ← field name fs;
  match raw with
  | None => Some {| Raw := EmptyString |}
  | Some raw =>
      if bool_decide (raw = "null") then Some {| Raw := EmptyString |}
      else Some {| Raw := raw |}
  end.

Definition kind_of (fs : list (string * string)) : option GroupVersionKind :=
  raw ← field "kind" fs;
  match raw with
  | None => Some {| gvk_Group := ""; gvk_Version := ""; gvk_Kind := "" |}
  | Some raw =>
      gs ← struct_of raw;
      let gs := default [] gs in
      g ← string_field "group" gs;
      v ← string_field "version" gs;
      k ← string_field "kind" gs;
      Some {| gvk_Group := g; gvk_Version := v; gvk_Kind := k |}
  end.

Definition request_of (fs : list (string * string)) : option AdmissionRequest :=
  uid ← string_field "uid" fs;
  kind ← kind_of fs;
  op ← string_field "operation" fs;
  old ← raw_field "oldObject" fs;
  new ← raw_field "object" fs;
  Some {| req_UID := uid; req_Kind := kind; req_Operation := op;
          req_OldObject := old; req_Object := new |}.

(** [json.Unmarshal] into an [AdmissionReview].  Keys of fields the model
    does not carry are skipped; a review that already carries a response
    is outside the fragment. *)
Definition review_of (body : string) : option AdmissionReview :=
  fs ← struct_of body;
  let fs := default [] fs in
  kind ← string_field "kind" fs;
  api ← string_field "apiVersion" fs;
  req ← field "request" fs;
  request ←
    match req with
    | None => Some None
    | Some raw =>
        rs ← struct_of raw;
        match rs with
        | None => Some None
        | Some rs => Some <$> request_of rs
        end
    end;
  resp ← field "response" fs;
  match resp with
  | None | Some "null" =>
      Some {| rv_TypeMeta := {| tm_Kind := kind; tm_APIVersion := api |};
              rv_Request := request;
              rv_Response := None |}
  | _ => None
  end.

Definition decoder : Unmarshal :=
  {| unmarshalReview := review_of; unmarshalObject := object_of |}.

End refjson.

(** JSON texts are written with an apostrophe for the double quote. *)
Fixpoint json (s : string) : string :=
  match s with
  | String c s' =>
      String (if (c =? "'")%char then refjson.quote else c) (json s')
  | EmptyString => EmptyString
  end.

(** The body of a call, reduced to the fields the handler reads: a review
    whose request carries the given identifier, kind, operation, old object
    and new object. *)
Definition reviewBody (uid kind operation oldObject object : string) : string :=
  json "{'kind':'AdmissionReview','apiVersion':'admission.k8s.io/v1','request':{'uid':'"
  +:+ uid +:+ json "','kind':{'group':'','version':'','kind':'" +:+ kind
  +:+ json "'},'operation':'" +:+ operation
  +:+ json "','oldObject':" +:+ oldObject
  +:+ json ",'object':" +:+ object +:+ "}}".

(** ** Scenarios

    The first three are the requests of the test suite and of the
    specification; the others exercise the remaining paths. *)

(** Old and new are the same text. *)
Definition scenarioNoop : string :=
  reviewBody "uuid" "Application" "UPDATE"
    (json "{'metadata': {}, 'spec': {}, 'status': {}}")
    (json "{'metadata': {}, 'spec': {}, 'status': {}}").

(** TestHandleAdmissionReview_StatusSyncRevisionChange *)
Definition scenarioStatusChange : string :=
  reviewBody "test-uid-status-sync-revision-change" "Application" "UPDATE"
    (json "{'metadata': {}, 'spec': {}, 'status': {'uid': 'abc123'}}")
    (json "{'metadata': {}, 'spec': {}, 'status': {'uid': 'def456'}}").

(** TestHandleAdmissionReview_StatusReconciledAtChange: an update of a kind
    that is not watched. *)
Definition scenarioOtherKind : string :=
  reviewBody "test-uid-status-change" "GrafanaDashboard" "UPDATE"
    (json "{'metadata': {}, 'spec': {}, 'status': {'lastResync': '2024-03-20T12:00:00Z'}}")
    (json "{'metadata': {}, 'spec': {}, 'status': {'lastResync': '2024-03-21T12:00:00Z'}}").

(** Old and new differ in the three volatile paths only. *)
Definition scenarioVolatile : string :=
  reviewBody "uid-volatile" "Application" "UPDATE"
    (json "{'metadata': {'name': 'app', 'generation': 1}, 'spec': {'project': 'default'}, 'status': {'health': 'Healthy', 'reconciledAt': '2024-03-20T12:00:00Z'}}")
    (json "{'metadata': {'name': 'app', 'generation': 2, 'managedFields': [{'manager': 'argocd'}]}, 'spec': {'project': 'default'}, 'status': {'health': 'Healthy', 'reconciledAt': '2024-03-21T12:00:00Z'}}").

(** A creation: the API server sends no old object. *)
Definition scenarioCreate : string :=
  reviewBody "uid-create" "Application" "CREATE"
    "null"
    (json "{'metadata': {}, 'spec': {}, 'status': {}}").

(** A watched update without an old object. *)
Definition scenarioNoOldObject : string :=
  reviewBody "uid-no-old" "Application" "UPDATE"
    "null"
    (json "{'metadata': {}, 'spec': {}, 'status': {}}").

(** "metadata" is null in the old object and missing from the new one. *)
Definition scenarioNullSection : string :=
  reviewBody "uid-null" "Application" "UPDATE"
    (json "{'metadata': null, 'spec': {}}")
    (json "{'spec': {}}").

(** Old and new differ under a key that is not a tracked section. *)
Definition scenarioOtherKey : string :=
  reviewBody "uid-other-key" "Application" "UPDATE"
    (json "{'kind': 'Application', 'metadata': {'name': 'app'}, 'spec': {}}")
    (json "{'kind': 'App', 'operation': {'sync': {}}, 'metadata': {'name': 'app'}, 'spec': {}}").

(** The same update without the other keys. *)
Definition scenarioSameSections : string :=
  reviewBody "uid-same-sections" "Application" "UPDATE"
    (json "{'metadata': {'name': 'app'}, 'spec': {}}")
    (json "{'metadata': {'name': 'app'}, 'spec': {}}").

(** A text that is no JSON, and a review without a request. *)
Definition scenarioMalformed : string := json "{'kind':'AdmissionReview',".

Definition scenarioNoRequest : string :=
  json "{'kind':'AdmissionReview','apiVersion':'admission.k8s.io/v1'}".

(** What the bodies built by [reviewBody] decode to. *)
Definition requestFor (uid kind operation oldObject object : string)
    : AdmissionRequest :=
  {| req_UID := uid;
     req_Kind := {| gvk_Group := ""; gvk_Version := ""; gvk_Kind := kind |};
     req_Operation := operation;
     req_OldObject := {| Raw := oldObject |};
     req_Object := {| Raw := object |} |}.

Definition reviewFor (request : AdmissionRequest) : AdmissionReview :=
  {| rv_TypeMeta := {| tm_Kind := "AdmissionReview";
                       tm_APIVersion := "admission.k8s.io/v1" |};
     rv_Request := Some request;
     rv_Response := None |}.

(** The tree of a text of the fragment, the empty tree for any other. *)
Definition tree (raw : string) : gmap string value :=
  default ∅ (refjson.object_of raw).

(** ** Vocabulary of the specification *)

(** The normalization the handler applies to one tree (lines 103-109). *)
Definition normalize (obj : gmap string value) : gmap string value :=
  removeReconciledAt (cleanupMetadata obj).

(** The volatile paths: [metadata.managedFields], [metadata.generation] and
    [status.reconciledAt]. *)
Definition volatile (sec key : string) : bool :=
  bool_decide (sec = "metadata" ∧ (key = "managedFields" ∨ key = "generation"))
  || bool_decide (sec = "status" ∧ key = "reconciledAt").

(** The value at [obj.sec.key], when [obj.sec] is a string-keyed map. *)
Definition path (obj : gmap string value) (sec key : string) : option value :=
  match index obj sec with
  | VMap m => m !! key
  | _ => None
  end.

(** What normalization makes of the entry stored under [sec]. *)
Definition strip (sec : string) (v : value) : value :=
  match v with
  | VMap m =>
      if decide (sec = "metadata")
      then VMap (delete "generation" (delete "managedFields" m))
      else if decide (sec = "status") then VMap (delete "reconciledAt" m)
      else v
  | _ => v
  end.

(** Two trees are structurally equal on the three tracked sections, each
    read the way the handler reads it. *)
Definition sectionsEqual (old new : gmap string value) : Prop :=
  index old "metadata" = index new "metadata"
  ∧ index old "spec" = index new "spec"
  ∧ index old "status" = index new "status".

Global Instance sectionsEqual_dec old new : Decision (sectionsEqual old new).
Proof. unfold sectionsEqual. apply _. Defined.

(** The flag the handler computes for one section (lines 111-113). *)
Definition sectionChanged (old new : gmap string value) (sec : string) : bool :=
  negb (deepEqual (index (normalize old) sec) (index (normalize new) sec)).


(** The two responses of the change detection. *)
Definition denied (uid : string) : AdmissionResponse :=
  {| resp_UID := uid;
     resp_Allowed := false;
     resp_Result := Some {| st_Status := "Success";
                            st_Message := "Update successful.";
                            st_Code := 200 |} |}.

Definition allowed (uid : string) : AdmissionResponse :=
  {| resp_UID := uid; resp_Allowed := true; resp_Result := None |}.

Section vocabulary.
Context `{Unmarshal}.

(** The request of an inbound call, when its body is read and decodes to
    a review that carries one. *)
Definition requestOf (body : option string) : option AdmissionRequest :=
  b ← body; review ← unmarshalReview b; rv_Request review.

(** The call passes the filter of line 84 and goes on to the change
    detection. *)
Definition watched (body : option string) : bool :=
  match requestOf body with
  | Some request =>
      bool_decide (req_Operation request = admissionv1.Update)
      && bool_decide (gvk_Kind (req_Kind request) = "Application")
  | None => false
  end.
End vocabulary.

(** The response carried by an outcome. *)
Definition responseOf (out : Outcome) : option AdmissionResponse :=
  match out with
  | HttpOK review => rv_Response review
  | _ => None
  end.

Definition errored (out : Outcome) : bool :=
  match out with
  | HttpOK _ => false
  | _ => true
  end.

(** Of the calls that went through the change detection, those answered
    "changed" ([allowed = true]) and those answered "unchanged". *)
Section tally.
Context `{Unmarshal}.

Definition decidedChanged (call : option string * Qc) (out : Outcome) : bool :=
  watched call.1 && bool_decide (resp_Allowed <$> responseOf out = Some true).

Definition decidedUnchanged (call : option string * Qc) (out : Outcome) : bool :=
  watched call.1 && bool_decide (resp_Allowed <$> responseOf out = Some false).

Fixpoint tally (f : option string * Qc → Outcome → bool)
    (calls : list (option string * Qc)) (outs : list Outcome) : nat :=
  match calls, outs with
  | call :: calls, out :: outs =>
      ((if f call out then 1 else 0) + tally f calls outs)%nat
  | _, _ => 0%nat
  end.
End tally.

(** ** The debug trace

    [log.Debug] and [log.Debugf] hand one entry each to the logger, which
    prints it at debug verbosity.  An entry is kept as what was logged: the
    message of a [log.Debug], whose operands are all strings and so are
    joined without spaces, or the key and the values of a [log.Debugf];
    the rendering of the values by [%v] is the logger's. *)
Inductive LogEntry :=
  | Debug (msg : string)
  | KeyChanged (key : string) (oldValue newValue : value)
  | KeyRemoved (key : string) (oldValue : value)
  | KeyAdded (key : string) (newValue : value).

(** The key an entry of [log.Debugf] reports. *)
Definition entryKey (e : LogEntry) : option string :=
  match e with
  | Debug _ => None
  | KeyChanged key _ _ | KeyRemoved key _ | KeyAdded key _ => Some key
  end.

(** Go fixes no order for ranging over a map: [rangeMap m] is the order
    the runtime picks, some enumeration of the entries of [m]. *)
Class MapRange := {
  rangeMap : gmap string value → list (string * value);
  rangeMap_perm m : rangeMap m ≡ₚ map_to_list m;
}.

(** The enumeration in the order of the keys' codes. *)
Definition canonicalRange : MapRange :=
  {| rangeMap := map_to_list; rangeMap_perm m := reflexivity _ |}.

(** [v.(map[string]interface{})] with the ok flag dropped: [None] is the
    nil map the assertion leaves when [v] is no map.  A map decoded from
    JSON is never nil, not even the empty one. *)
Definition asMap (v : value) : option (gmap string value) :=
  match v with
  | VMap m => Some m
  | _ => None
  end.

Section trace.
Context `{MapRange}.

(** Ranging over the nil map runs no iteration and indexing it finds no
    key, as for the empty map. *)
Definition printDifferences (owner : string)
    (oldMap newMap : option (gmap string value)) : list LogEntry :=
  match oldMap, newMap with
  | None, None => []
  | _, _ =>
      let oldEntries := default ∅ oldMap in
      let newEntries := default ∅ newMap in
      [Debug ("----- " +:+ owner +:+ " Differences -----")]
      ++ ('(key, oldValue) ← rangeMap oldEntries;
          match newEntries !! key with
          | Some newValue =>
              if negb (deepEqual oldValue newValue)
              then [KeyChanged key oldValue newValue]
              else []
          | None => [KeyRemoved key oldValue]
          end)
      ++ ('(key, newValue) ← rangeMap newEntries;
          match oldEntries !! key with
          | Some _ => []
          | None => [KeyAdded key newValue]
          end)
  end%list.

(** The entries of the two loops of [printDifferences], over the entries
    of the two maps. *)
Definition keyEntries (oldEntries newEntries : gmap string value)
    : list LogEntry :=
  (('(key, oldValue) ← rangeMap oldEntries;
    match newEntries !! key with
    | Some newValue =>
        if negb (deepEqual oldValue newValue)
        then [KeyChanged key oldValue newValue]
        else []
    | None => [KeyRemoved key oldValue]
    end)
   ++ ('(key, newValue) ← rangeMap newEntries;
       match oldEntries !! key with
       | Some _ => []
       | None => [KeyAdded key newValue]
       end))%list.

Definition printMetadataDifferences (oldObj newObj : gmap string value)
    : list LogEntry :=
  let oldMetadata := asMap (index oldObj "metadata") in
  let newMetadata := asMap (index newObj "metadata") in
  printDifferences "Metadata" oldMetadata newMetadata.

Definition printSpecDifferences (oldObj newObj : gmap string value)
    : list LogEntry :=
  let oldSpec := asMap (index oldObj "spec") in
  let newSpec := asMap (index newObj "spec") in
  printDifferences "Spec" oldSpec newSpec.

Definition printStatusDifferences (oldObj newObj : gmap string value)
    : list LogEntry :=
  let oldStatus := asMap (index oldObj "status") in
  let newStatus := asMap (index newObj "status") in
  printDifferences "Status" oldStatus newStatus.

Context `{Unmarshal}.

(** [handleAdmissionReview] with the entries it hands to the logger. *)
Definition handleAdmissionReviewTraced (body : option string) (elapsed : Qc)
    (ms : Metrics) : Outcome * Metrics * list LogEntry :=
  match body with
  | None =>
      (HttpError "failed to read request body" http.StatusInternalServerError,
       ms, [])
  | Some body =>
  match unmarshalReview body with
  | None =>
      (HttpError "failed to unmarshal request" http.StatusBadRequest, ms, [])
  | Some admissionReviewReq =>
  match rv_Request admissionReviewReq with
  | None => (Panic, ms, [])
  | Some request =>
  let response :=
    {| resp_UID := req_UID request; resp_Allowed := true; resp_Result := None |} in
  if bool_decide (req_Operation request ≠ admissionv1.Update)
     || bool_decide (gvk_Kind (req_Kind request) ≠ "Application")
  then (sendResponse (reviewWith response), ms, [])
  else
  match unmarshalObject (Raw (req_OldObject request)) with
  | None =>
      (HttpError "failed to parse old object" http.StatusInternalServerError,
       ms, [])
  | Some oldObj =>
  match unmarshalObject (Raw (req_Object request)) with
  | None =>
      (HttpError "failed to parse new object" http.StatusInternalServerError,
       ms, [])
  | Some newObj =>
  let oldObj := cleanupMetadata oldObj in
  let newObj := cleanupMetadata newObj in
  let oldObj := removeReconciledAt oldObj in
  let newObj := removeReconciledAt newObj in
  let metadataChanged :=
    negb (deepEqual (index oldObj "metadata") (index newObj "metadata")) in
  let specChanged :=
    negb (deepEqual (index oldObj "spec") (index newObj "spec")) in
  let statusChanged :=
    negb (deepEqual (index oldObj "status") (index newObj "status")) in
  let '(response, ms, log) :=
    if negb metadataChanged && negb specChanged && negb statusChanged
    then
      ({| resp_UID := resp_UID response;
          resp_Allowed := false;
          resp_Result := Some {| st_Status := "Success";
                                 st_Message := "Update successful.";
                                 st_Code := http.StatusOK |} |},
       Inc "false" ms,
       [Debug "No significant differences found."])
    else
      ({| resp_UID := resp_UID response;
          resp_Allowed := true;
          resp_Result := resp_Result response |},
       Inc "true" ms,
       (if metadataChanged then printMetadataDifferences oldObj newObj else [])
       ++ (if specChanged then printSpecDifferences oldObj newObj else [])
       ++ (if statusChanged then printStatusDifferences oldObj newObj else []))%list
  in
  (sendResponse (reviewWith response),
   recordRequestDuration
     (fmt_bool (metadataChanged || specChanged || statusChanged)) elapsed ms,
   log)
  end end end end end.
End trace.

(** ** Further vocabulary *)

(** The entries of a map that may be nil. *)
Definition entriesOf (m : option (gmap string value)) : gmap string value :=
  default ∅ m.

(** The header [printDifferences] logs for an owner. *)
Definition header (owner : string) : LogEntry :=
  Debug ("----- " +:+ owner +:+ " Differences -----").

(** The trace of a watched update, from its two normalized trees (lines
    115-136). *)
Definition updateTrace `{MapRange} (oldObj newObj : gmap string value)
    : list LogEntry :=
  if bool_decide (sectionsEqual oldObj newObj)
  then [Debug "No significant differences found."]
  else ((if negb (deepEqual (index oldObj "metadata") (index newObj "metadata"))
         then printMetadataDifferences oldObj newObj else [])
        ++ (if negb (deepEqual (index oldObj "spec") (index newObj "spec"))
            then printSpecDifferences oldObj newObj else [])
        ++ (if negb (deepEqual (index oldObj "status") (index newObj "status"))
            then printStatusDifferences oldObj newObj else []))%list.

(** The section equality of the specification's words: a section that is
    missing is not a section that is null.  Two trees hold the same entry,
    or no entry, under each of the three sections. *)
Definition sectionsIdentical (old new : gmap string value) : Prop :=
  old !! "metadata" = new !! "metadata"
  ∧ old !! "spec" = new !! "spec"
  ∧ old !! "status" = new !! "status".

(** The three sections the handler compares. *)
Definition tracked (sec : string) : Prop :=
  sec = "metadata" ∨ sec = "spec" ∨ sec = "status".

(** The number of observations the histogram holds under a label. *)
Definition observations (ms : Metrics) (label : string) : nat :=
  length (default [] (requestDuration ms !! label)).

Section decoding.
Context `{Unmarshal}.

(** [body] is a watched update: it decodes to a review whose request is an
    UPDATE of an "Application" with the given old and new trees. *)
Definition watchedUpdate (body : string) (request : AdmissionRequest)
    (oldObj newObj : gmap string value) : Prop :=
  (∃ review, unmarshalReview body = Some review
             ∧ rv_Request review = Some request)
  ∧ req_Operation request = admissionv1.Update
  ∧ gvk_Kind (req_Kind request) = "Application"
  ∧ unmarshalObject (Raw (req_OldObject request)) = Some oldObj
  ∧ unmarshalObject (Raw (req_Object request)) = Some newObj.
End decoding.

(** ** Facts about trees and DeepEqual *)

Lemma value_size_elem (l : list value) (v : value) :
  v ∈ l → (value_size v < value_size (VArray l))%nat.
Proof.
  simpl. induction 1 as [v l|v w l _ IH]; simpl; lia.
Qed.

Lemma value_size_lookup (m : gmap string value) (k : string) (v : value) :
  m !! k = Some v → (value_size v < value_size (VMap m))%nat.
Proof.
  intros Hk. simpl.
  rewrite (map_fold_delete_L _ _ k v m); [lia | intros; lia | done].
Qed.

Lemma value_ind' (P : value → Prop) :
  P VNull →
  (∀ b, P (VBool b)) →
  (∀ q, P (VNumber q)) →
  (∀ s, P (VString s)) →
  (∀ l, Forall P l → P (VArray l)) →
  (∀ m, map_Forall (λ _, P) m → P (VMap m)) →
  ∀ v, P v.
Proof.
  intros Hnull Hbool Hnum Hstr Harr Hmap v.
  remember (value_size v) as n eqn:Hn. revert v Hn.
  induction n as [n IH] using lt_wf_ind. intros v ->.
  destruct v as [| | | |l|m]; auto.
  - apply Harr, list.Forall_forall. intros w Hw.
    eapply IH; [|done]. by apply value_size_elem.
  - apply Hmap. intros k w Hk.
    eapply IH; [|done]. by eapply value_size_lookup.
Qed.

Lemma sliceEqual_spec {A} (eqb : A → A → bool) (l1 l2 : list A) :
  Forall (λ a, ∀ b, eqb a b = true ↔ a = b) l1 →
  sliceEqual eqb l1 l2 = true ↔ l1 = l2.
Proof.
  intros Hl. revert l2.
  induction Hl as [|a l1 Ha _ IH]; intros [|b l2]; simpl; try done.
  rewrite andb_true_iff, Ha, IH.
  split; [by intros [-> ->] | by intros [= -> ->]].
Qed.

Lemma map_fold_andb_true {A} (g : string → A → bool) (m : gmap string A) :
  map_fold (λ k v acc, acc && g k v) true m = true
  ↔ map_Forall (λ k v, g k v = true) m.
Proof.
  apply (map_fold_weak_ind (λ r m, r = true ↔ map_Forall (λ k v, g k v = true) m)).
  - split; [intros _; apply map_Forall_empty | done].
  - intros k v m' r Hk IH.
    rewrite andb_true_iff, map_Forall_insert by done. tauto.
Qed.

Lemma mapEqual_spec {A} (eqb : A → A → bool) (m1 m2 : gmap string A) :
  map_Forall (λ _ a, ∀ b, eqb a b = true ↔ a = b) m1 →
  mapEqual eqb m1 m2 = true ↔ m1 = m2.
Proof.
  intros Hm. unfold mapEqual.
  rewrite andb_true_iff, bool_decide_eq_true, map_fold_andb_true.
  split.
  - intros [Hsize Hall]. apply map_subseteq_size_eq; [|lia].
    apply map_subseteq_spec. intros k v Hk.
    specialize (Hall k v Hk). simpl in Hall.
    destruct (m2 !! k) as [w|]; [|done].
    by apply (Hm k v Hk) in Hall as ->.
  - intros <-. split; [done|]. intros k v Hk. simpl. rewrite Hk.
    by apply (Hm k v Hk).
Qed.

(** On JSON trees DeepEqual decides structural equality. *)
Lemma deepEqual_spec (x y : value) : deepEqual x y = true ↔ x = y.
Proof.
  revert y. induction x as [|a|a|a|l IH|m IH] using value_ind'; intros y.
  - destruct y; simpl; naive_solver.
  - destruct y; simpl; rewrite ?bool_decide_eq_true; naive_solver.
  - destruct y; simpl; rewrite ?bool_decide_eq_true; naive_solver.
  - destruct y; simpl; rewrite ?bool_decide_eq_true; naive_solver.
  - destruct y as [| | | |l2|]; simpl; try naive_solver.
    rewrite sliceEqual_spec by done. naive_solver.
  - destruct y as [| | | | |m2]; simpl; try naive_solver.
    rewrite mapEqual_spec by done. naive_solver.
Qed.

Lemma deepEqual_refl (x : value) : deepEqual x x = true.
Proof. by apply deepEqual_spec. Qed.

Lemma deepEqual_false (x y : value) : deepEqual x y = false ↔ x ≠ y.
Proof. rewrite <-deepEqual_spec. by destruct (deepEqual x y). Qed.

(** ** Normalization *)

Lemma lookup_cleanupMetadata (obj : gmap string value) (k : string) :
  cleanupMetadata obj !! k =
    (if decide (k = "metadata") then strip "metadata" else id) <$> obj !! k.
Proof.
  unfold cleanupMetadata, index.
  destruct (obj !! "metadata") as [v|] eqn:Hmd; simpl.
  - destruct v; case_decide; subst; rewrite ?Hmd, ?option_fmap_id; try done.
    + by rewrite lookup_insert_eq.
    + by rewrite lookup_insert_ne.
  - case_decide; subst; rewrite ?Hmd, ?option_fmap_id; done.
Qed.

Lemma lookup_removeReconciledAt (obj : gmap string value) (k : string) :
  removeReconciledAt obj !! k =
    (if decide (k = "status") then strip "status" else id) <$> obj !! k.
Proof.
  unfold removeReconciledAt, index.
  destruct (obj !! "status") as [v|] eqn:Hst; simpl.
  - destruct v; case_decide; subst; rewrite ?Hst, ?option_fmap_id; try done.
    + by rewrite lookup_insert_eq.
    + by rewrite lookup_insert_ne.
  - case_decide; subst; rewrite ?Hst, ?option_fmap_id; done.
Qed.

Lemma strip_other (sec : string) (v : value) :
  sec ≠ "metadata" → sec ≠ "status" → strip sec v = v.
Proof. intros. destruct v; simpl; repeat case_decide; done. Qed.

Lemma lookup_normalize (obj : gmap string value) (sec : string) :
  normalize obj !! sec = strip sec <$> obj !! sec.
Proof.
  unfold normalize.
  rewrite lookup_removeReconciledAt, lookup_cleanupMetadata.
  rewrite <-option_fmap_compose.
  destruct (obj !! sec) as [v|]; simpl; [f_equal|done].
  repeat case_decide; subst; try done.
  by rewrite strip_other.
Qed.

Lemma index_normalize (obj : gmap string value) (sec : string) :
  index (normalize obj) sec = strip sec (index obj sec).
Proof.
  unfold index. rewrite lookup_normalize. by destruct (obj !! sec).
Qed.

Lemma strip_lookup (sec : string) (m m' : gmap string value) (key : string) :
  strip sec (VMap m) = VMap m' →
  m' !! key = if volatile sec key then None else m !! key.
Proof.
  unfold strip, volatile. intros Hs.
  destruct (decide (sec = "metadata")) as [->|Hmd];
    [|destruct (decide (sec = "status")) as [->|Hst]]; simplify_eq.
  - rewrite !lookup_delete.
    rewrite (bool_decide_eq_false_2 (_ ∧ key = "reconciledAt")) by (by intros []).
    rewrite orb_false_r.
    destruct (decide ("generation" = key)) as [<-|];
      [by rewrite bool_decide_eq_true_2 by auto|].
    destruct (decide ("managedFields" = key)) as [<-|];
      [by rewrite bool_decide_eq_true_2 by auto|].
    rewrite bool_decide_eq_false_2; [done|]. intros [_ [->| ->]]; done.
  - rewrite lookup_delete.
    rewrite (bool_decide_eq_false_2 ("status" = "metadata" ∧ _)) by (by intros []).
    destruct (decide ("reconciledAt" = key)) as [<-|];
      [by rewrite bool_decide_eq_true_2 by auto|].
    rewrite bool_decide_eq_false_2; [done|]. intros [_ ->]; done.
  - rewrite !bool_decide_eq_false_2; [done|by intros []..].
Qed.

Lemma strip_VMap (sec : string) (m : gmap string value) :
  ∃ m', strip sec (VMap m) = VMap m'.
Proof. unfold strip. repeat case_decide; eauto. Qed.

Lemma strip_not_null (sec : string) (v : value) :
  v ≠ VNull → strip sec v ≠ VNull.
Proof. destruct v; try done. unfold strip. by repeat case_decide. Qed.

Lemma strip_idemp (sec : string) (v : value) :
  strip sec (strip sec v) = strip sec v.
Proof.
  destruct v as [| | | | |m]; try done.
  destruct (strip_VMap sec m) as [m' Hm']. rewrite Hm'.
  destruct (strip_VMap sec m') as [m'' Hm'']. rewrite Hm''. f_equal.
  apply map_eq. intros key.
  rewrite (strip_lookup _ _ _ key Hm''), (strip_lookup _ _ _ key Hm').
  by destruct (volatile sec key).
Qed.

Lemma path_normalize (obj : gmap string value) (sec key : string) :
  path (normalize obj) sec key
  = if volatile sec key then None else path obj sec key.
Proof.
  unfold path. rewrite index_normalize.
  destruct (index obj sec) as [| | | | |m]; simpl; try by destruct (volatile _ _).
  destruct (strip_VMap sec m) as [m' Hm']. simpl in Hm'. rewrite Hm'.
  apply (strip_lookup _ _ _ _ Hm').
Qed.

Lemma strip_absent (sec : string) (v : value) :
  (∀ m key, v = VMap m → volatile sec key = true → m !! key = None) →
  strip sec v = v.
Proof.
  intros Habs. destruct v as [| | | | |m]; try done.
  destruct (strip_VMap sec m) as [m' Hm']. rewrite Hm'. f_equal.
  apply map_eq. intros key. rewrite (strip_lookup _ _ _ key Hm').
  destruct (volatile sec key) eqn:Hv; [|done].
  symmetry. by apply Habs.
Qed.

Lemma normalize_absent (obj : gmap string value) :
  (∀ sec key, volatile sec key = true → path obj sec key = None) →
  normalize obj = obj.
Proof.
  intros Habs. apply map_eq. intros sec. rewrite lookup_normalize.
  destruct (obj !! sec) as [v|] eqn:Hsec; simpl; [f_equal|done].
  apply strip_absent. intros m key -> Hv.
  specialize (Habs sec key Hv). unfold path, index in Habs.
  by rewrite Hsec in Habs.
Qed.

Lemma normalize_idemp (obj : gmap string value) :
  normalize (normalize obj) = normalize obj.
Proof.
  apply map_eq. intros sec. rewrite !lookup_normalize.
  destruct (obj !! sec); simpl; [|done]. by rewrite strip_idemp.
Qed.




Lemma sectionsEqual_flags (old new : gmap string value) :
  sectionsEqual (normalize old) (normalize new)
  ↔ sectionChanged old new "metadata" = false
    ∧ sectionChanged old new "spec" = false
    ∧ sectionChanged old new "status" = false.
Proof.
  unfold sectionsEqual, sectionChanged.
  rewrite !negb_false_iff, !deepEqual_spec. done.
Qed.

(** Sections that hold the same entries read the same. *)
Lemma sectionsIdentical_equal (a b : gmap string value) :
  sectionsIdentical a b → sectionsEqual a b.
Proof.
  intros (Hmd & Hspec & Hst). unfold sectionsEqual, index.
  by rewrite Hmd, Hspec, Hst.
Qed.

(** Keys other than the three sections do not reach the comparison. *)
Lemma sectionsEqual_raw (a b : gmap string value) :
  a !! "metadata" = b !! "metadata" →
  a !! "spec" = b !! "spec" →
  a !! "status" = b !! "status" →
  sectionsEqual (normalize a) (normalize b).
Proof.
  intros Hmd Hspec Hst. unfold sectionsEqual.
  rewrite !index_normalize. unfold index. by rewrite Hmd, Hspec, Hst.
Qed.

(** ** The handler, path by path *)

Lemma deepEqual_decide (x y : value) : deepEqual x y = bool_decide (x = y).
Proof.
  case_bool_decide as Hxy.
  - by apply deepEqual_spec.
  - by apply deepEqual_false.
Qed.

Lemma counter_Inc (l l' : string) (ms : Metrics) :
  counter (Inc l ms) l' = if decide (l = l') then S (counter ms l) else counter ms l'.
Proof.
  unfold counter at 1, Inc. simpl. rewrite lookup_insert.
  by case_decide.
Qed.

Lemma counter_Observe (l l' : string) (d : Qc) (ms : Metrics) :
  counter (Observe l d ms) l' = counter ms l'.
Proof. done. Qed.

Section paths.
Context `{Unmarshal}.

(** The fast path of line 84. *)
Lemma handle_pass body review request elapsed ms :
  unmarshalReview body = Some review →
  rv_Request review = Some request →
  req_Operation request ≠ admissionv1.Update
    ∨ gvk_Kind (req_Kind request) ≠ "Application" →
  handleAdmissionReview (Some body) elapsed ms
  = (HttpOK (reviewWith (allowed (req_UID request))), ms).
Proof.
  intros Hreview Hrequest Hpass. unfold handleAdmissionReview.
  rewrite Hreview, Hrequest.
  destruct Hpass.
  - by rewrite bool_decide_eq_true_2.
  - rewrite (bool_decide_eq_true_2 (gvk_Kind _ ≠ _)) by done.
    by rewrite orb_true_r.
Qed.

(** The change detection of lines 103-146. *)
Lemma handle_update body review request oldObj newObj elapsed ms :
  unmarshalReview body = Some review →
  rv_Request review = Some request →
  req_Operation request = admissionv1.Update →
  gvk_Kind (req_Kind request) = "Application" →
  unmarshalObject (Raw (req_OldObject request)) = Some oldObj →
  unmarshalObject (Raw (req_Object request)) = Some newObj →
  handleAdmissionReview (Some body) elapsed ms
  = let changed :=
      negb (bool_decide (sectionsEqual (normalize oldObj) (normalize newObj))) in
    (HttpOK (reviewWith
       (if changed then allowed (req_UID request) else denied (req_UID request))),
     Observe (fmt_bool changed) elapsed (Inc (fmt_bool changed) ms)).
Proof.
  intros Hreview Hrequest Hop Hkind Hold Hnew. unfold handleAdmissionReview.
  rewrite Hreview, Hrequest, Hop, Hkind, Hold, Hnew.
  rewrite !bool_decide_eq_false_2 by (intros ?; done). simpl.
  fold (normalize oldObj) (normalize newObj).
  rewrite !deepEqual_decide. unfold sectionsEqual.
  repeat case_bool_decide; simpl; try done; tauto.
Qed.

(** A watched update whose old or new object does not decode. *)
Lemma handle_unparsed body review request elapsed ms :
  unmarshalReview body = Some review →
  rv_Request review = Some request →
  req_Operation request = admissionv1.Update →
  gvk_Kind (req_Kind request) = "Application" →
  unmarshalObject (Raw (req_OldObject request)) = None
    ∨ unmarshalObject (Raw (req_Object request)) = None →
  ∃ msg, handleAdmissionReview (Some body) elapsed ms
         = (HttpError msg http.StatusInternalServerError, ms).
Proof.
  intros Hreview Hrequest Hop Hkind Hraw. unfold handleAdmissionReview.
  rewrite Hreview, Hrequest, Hop, Hkind.
  rewrite !bool_decide_eq_false_2 by (intros ?; done). simpl.
  destruct (unmarshalObject (Raw (req_OldObject request))); [|by eauto].
  destruct (unmarshalObject (Raw (req_Object request))); [|by eauto].
  by destruct Hraw.
Qed.

(** Every call takes one of the paths above, or fails before them. *)
Lemma handle_cases body elapsed ms :
  let '(out, ms') := handleAdmissionReview body elapsed ms in
  (errored out = true ∧ ms' = ms)
  ∨ (watched body = false ∧ ms' = ms
     ∧ ∃ request, requestOf body = Some request
                  ∧ out = HttpOK (reviewWith (allowed (req_UID request))))
  ∨ (watched body = true
     ∧ ∃ request changed,
         requestOf body = Some request
         ∧ out = HttpOK (reviewWith
             (if changed : bool
              then allowed (req_UID request) else denied (req_UID request)))
         ∧ ms' = Observe (fmt_bool changed) elapsed (Inc (fmt_bool changed) ms)).
Proof.
  destruct body as [body|]; [|by left].
  destruct (unmarshalReview body) as [review|] eqn:Hreview;
    [|unfold handleAdmissionReview; rewrite Hreview; by left].
  destruct (rv_Request review) as [request|] eqn:Hrequest;
    [|unfold handleAdmissionReview; rewrite Hreview, Hrequest; by left].
  assert (requestOf (Some body) = Some request) as Hreq.
  { unfold requestOf. simpl. by rewrite Hreview. }
  destruct (decide (req_Operation request = admissionv1.Update)) as [Hop|Hop];
    [destruct (decide (gvk_Kind (req_Kind request) = "Application"))
       as [Hkind|Hkind]|].
  - destruct (unmarshalObject (Raw (req_OldObject request)))
      as [oldObj|] eqn:Hold;
      [destruct (unmarshalObject (Raw (req_Object request)))
         as [newObj|] eqn:Hnew|].
    + rewrite (handle_update _ _ _ _ _ _ _ Hreview Hrequest Hop Hkind Hold Hnew).
      simpl. right; right. split.
      * unfold watched. rewrite Hreq.
        by rewrite !bool_decide_eq_true_2.
      * eauto.
    + destruct (handle_unparsed body review request elapsed ms
                  Hreview Hrequest Hop Hkind (or_intror Hnew)) as [msg ->].
      by left.
    + destruct (handle_unparsed body review request elapsed ms
                  Hreview Hrequest Hop Hkind (or_introl Hold)) as [msg ->].
      by left.
  - rewrite (handle_pass _ _ _ _ _ Hreview Hrequest) by auto.
    right; left. repeat split; [|by eauto].
    unfold watched. rewrite Hreq.
    rewrite (bool_decide_eq_false_2 (gvk_Kind _ = _)) by done.
    apply andb_false_r.
  - rewrite (handle_pass _ _ _ _ _ Hreview Hrequest) by auto.
    right; left. repeat split; [|by eauto].
    unfold watched. rewrite Hreq.
    by rewrite bool_decide_eq_false_2.
Qed.
(** A review without a request: line 78 dereferences the nil pointer. *)
Lemma handle_no_request body review elapsed ms :
  unmarshalReview body = Some review →
  rv_Request review = None →
  handleAdmissionReview (Some body) elapsed ms = (Panic, ms).
Proof.
  intros Hreview Hrequest. unfold handleAdmissionReview.
  by rewrite Hreview, Hrequest.
Qed.

(** What one call adds to the counters. *)
Lemma handle_counts call :
  ∀ ms, let '(out, ms') := handleAdmissionReview call.1 call.2 ms in
  counter ms' "true"
    = (counter ms "true" + if decidedChanged call out then 1 else 0)%nat
  ∧ counter ms' "false"
    = (counter ms "false" + if decidedUnchanged call out then 1 else 0)%nat
  ∧ (∀ l, l ≠ "true" → l ≠ "false" → counter ms' l = counter ms l)
  ∧ (errored out = false →
     ((if decidedChanged call out then 1 else 0)
      + (if decidedUnchanged call out then 1 else 0)
      = if watched call.1 then 1 else 0)%nat).
Proof.
  intros ms. destruct call as [body elapsed]. simpl.
  pose proof (handle_cases body elapsed ms) as Hcases.
  destruct (handleAdmissionReview body elapsed ms) as [out ms'].
  unfold decidedChanged, decidedUnchanged. simpl.
  destruct Hcases as [[Herr ->]|[(Hw & -> & _)
                                |(Hw & request & changed & _ & -> & ->)]].
  - destruct out; try done; simpl; rewrite !andb_false_r.
    all: repeat split; auto with lia; by rewrite Herr.
  - rewrite Hw. simpl. repeat split; auto with lia.
  - rewrite Hw. destruct changed; simpl;
      rewrite !counter_Observe, !counter_Inc; simpl;
      repeat split; auto with lia.
    all: intros l ? ?; rewrite counter_Observe, counter_Inc;
      by case_decide; simplify_eq.
Qed.
End paths.

(** ** The claims *)

Section claims.
Context `{Unmarshal}.

(** C1, as the code has it.  A watched update whose old and new objects
    both decode is denied, with status "Success", message
    "Update successful." and code 200, exactly when the normalized trees
    are equal on metadata, spec and status, a missing section being read
    as null, and is allowed without a result otherwise.  Trees that hold
    the same entries under the three sections after normalization are
    denied, and so are old and new objects of the same bytes. *)
Theorem update_denied_iff_unchanged
    body review request oldObj newObj elapsed ms :
  unmarshalReview body = Some review →
  rv_Request review = Some request →
  req_Operation request = admissionv1.Update →
  gvk_Kind (req_Kind request) = "Application" →
  unmarshalObject (Raw (req_OldObject request)) = Some oldObj →
  unmarshalObject (Raw (req_Object request)) = Some newObj →
  let out := (handleAdmissionReview (Some body) elapsed ms).1 in
  (out = HttpOK (reviewWith (denied (req_UID request)))
     ↔ sectionsEqual (normalize oldObj) (normalize newObj))
  ∧ (out = HttpOK (reviewWith (allowed (req_UID request)))
     ↔ ¬ sectionsEqual (normalize oldObj) (normalize newObj))
  ∧ (Raw (req_OldObject request) = Raw (req_Object request) →
     out = HttpOK (reviewWith (denied (req_UID request))))
  ∧ (sectionsIdentical (normalize oldObj) (normalize newObj) →
     out = HttpOK (reviewWith (denied (req_UID request)))).
Proof.
  intros Hreview Hrequest Hop Hkind Hold Hnew out. subst out.
  rewrite (handle_update _ _ _ _ _ _ _ Hreview Hrequest Hop Hkind Hold Hnew).
  simpl. case_bool_decide as Heq; simpl.
  - split; [done|]. split; [|done]. split; [intros [=]|done].
  - split; [split; [intros [=]|done]|]. split; [done|]. split.
    + intros Hraw. rewrite Hraw, Hnew in Hold. injection Hold as ->.
      by destruct Heq.
    + intros Hsame. destruct Heq. by apply sectionsIdentical_equal.
Qed.

(** C2. A request whose operation is not UPDATE, or whose kind is not
    "Application", is answered allowed=true with its own identifier and
    the vectors untouched; the answer is the same whatever the old and
    new objects hold, readable or not. *)
Theorem pass_through_allowed body review request elapsed ms :
  unmarshalReview body = Some review →
  rv_Request review = Some request →
  req_Operation request ≠ admissionv1.Update
    ∨ gvk_Kind (req_Kind request) ≠ "Application" →
  handleAdmissionReview (Some body) elapsed ms
    = (HttpOK (reviewWith (allowed (req_UID request))), ms)
  ∧ ∀ body' review' request',
      unmarshalReview body' = Some review' →
      rv_Request review' = Some request' →
      req_UID request' = req_UID request →
      req_Kind request' = req_Kind request →
      req_Operation request' = req_Operation request →
      handleAdmissionReview (Some body') elapsed ms
      = handleAdmissionReview (Some body) elapsed ms.
Proof.
  intros Hreview Hrequest Hpass.
  rewrite (handle_pass _ _ _ _ _ Hreview Hrequest Hpass). split; [done|].
  intros body' review' request' Hreview' Hrequest' Huid Hk Hop.
  rewrite <-Huid. apply (handle_pass _ _ _ _ _ Hreview' Hrequest').
  by rewrite Hk, Hop.
Qed.

(** C6. Whenever the handler answers with a review, on the fast path or
    after the change detection, the response of that review carries the
    identifier of the request. *)
Theorem response_uid_echoed body elapsed ms review :
  (handleAdmissionReview body elapsed ms).1 = HttpOK review →
  ∃ request response,
    requestOf body = Some request
    ∧ rv_Response review = Some response
    ∧ resp_UID response = req_UID request.
Proof.
  pose proof (handle_cases body elapsed ms) as Hcases.
  destruct (handleAdmissionReview body elapsed ms) as [out ms']. simpl.
  intros ->.
  destruct Hcases as [[[=] _]|[(_ & _ & request & Hreq & [= ->])
                              |(_ & request & changed & Hreq & [= ->] & _)]].
  - by exists request, (allowed (req_UID request)).
  - eexists request, _. split; [done|]. split; [done|]. by destruct changed.
Qed.


(** X17. A body that does not decode is answered with status 400, and a
    watched update whose old or new object does not decode with status
    500; neither produces a response, and no call that ends without a
    response changes the vectors. *)
Theorem undecodable_input_rejected body elapsed ms :
  (unmarshalReview body = None →
   handleAdmissionReview (Some body) elapsed ms
   = (HttpError "failed to unmarshal request" http.StatusBadRequest, ms))
  ∧ (∀ review request,
       unmarshalReview body = Some review →
       rv_Request review = Some request →
       req_Operation request = admissionv1.Update →
       gvk_Kind (req_Kind request) = "Application" →
       unmarshalObject (Raw (req_OldObject request)) = None
         ∨ unmarshalObject (Raw (req_Object request)) = None →
       ∃ msg, handleAdmissionReview (Some body) elapsed ms
              = (HttpError msg http.StatusInternalServerError, ms))
  ∧ (∀ call,
       errored (handleAdmissionReview call elapsed ms).1 = true →
       responseOf (handleAdmissionReview call elapsed ms).1 = None
       ∧ (handleAdmissionReview call elapsed ms).2 = ms).
Proof.
  split; [|split].
  - intros Hreview. unfold handleAdmissionReview. by rewrite Hreview.
  - intros review request. apply handle_unparsed.
  - intros call.
    pose proof (handle_cases call elapsed ms) as Hcases.
    destruct (handleAdmissionReview call elapsed ms) as [out ms']. simpl.
    intros Herr. split; [by destruct out|].
    destruct Hcases as [[_ ->]|[(_ & _ & ? & _ & ->)
                               |(_ & ? & ? & _ & -> & _)]]; done.
Qed.

(** C8, as the code has it.  A call that goes through the change
    detection adds one to exactly one of the two counters, "true" when it
    was answered changed and "false" when unchanged; any other call adds
    nothing.  After a run, "true" has grown by the number M of calls
    answered changed and "false" by the number answered unchanged, which
    is N - M for the N calls that passed the filter when no call failed. *)
Theorem counters_tally_decisions calls :
  ∀ ms, let '(outs, ms') := serve calls ms in
  length outs = length calls
  ∧ counter ms' "true"
    = (counter ms "true" + tally decidedChanged calls outs)%nat
  ∧ counter ms' "false"
    = (counter ms "false" + tally decidedUnchanged calls outs)%nat
  ∧ (∀ l, l ≠ "true" → l ≠ "false" → counter ms' l = counter ms l)
  ∧ (Forall (λ out, errored out = false) outs →
     (tally decidedChanged calls outs
      ≤ tally (λ call _, watched call.1) calls outs)%nat
     ∧ tally decidedUnchanged calls outs
       = (tally (λ call _, watched call.1) calls outs
          - tally decidedChanged calls outs)%nat).
Proof.
  induction calls as [|call calls IH]; intros ms; simpl.
  { repeat split; auto with lia. }
  destruct call as [body elapsed].
  pose proof (handle_counts (body, elapsed) ms) as Hcall. simpl in Hcall.
  destruct (handleAdmissionReview body elapsed ms) as [out ms1].
  specialize (IH ms1). destruct (serve calls ms1) as [outs ms2]. simpl.
  destruct Hcall as (Ht & Hf & Hl & Hok), IH as (IHn & IHt & IHf & IHl & IHok).
  split; [by rewrite IHn|]. split; [lia|]. split; [lia|].
  split; [intros l ? ?; by rewrite IHl, Hl|].
  intros Hall. apply list.Forall_cons in Hall as [Hout Hall].
  specialize (Hok Hout). destruct (IHok Hall) as [IHle IHsub].
  destruct (decidedChanged (body, elapsed) out),
    (decidedUnchanged (body, elapsed) out), (watched body);
    simpl in *; lia.
Qed.

(** C9. Two watched updates whose normalized old trees agree on metadata,
    spec and status, and whose normalized new trees agree on them too,
    get the same allowed flag and the same result.  Trees that hold the
    same entries under the three sections agree on them after
    normalization, whatever their other top-level keys hold. *)
Theorem decision_depends_on_sections
    body1 review1 request1 old1 new1 body2 review2 request2 old2 new2
    elapsed ms :
  unmarshalReview body1 = Some review1 →
  rv_Request review1 = Some request1 →
  req_Operation request1 = admissionv1.Update →
  gvk_Kind (req_Kind request1) = "Application" →
  unmarshalObject (Raw (req_OldObject request1)) = Some old1 →
  unmarshalObject (Raw (req_Object request1)) = Some new1 →
  unmarshalReview body2 = Some review2 →
  rv_Request review2 = Some request2 →
  req_Operation request2 = admissionv1.Update →
  gvk_Kind (req_Kind request2) = "Application" →
  unmarshalObject (Raw (req_OldObject request2)) = Some old2 →
  unmarshalObject (Raw (req_Object request2)) = Some new2 →
  sectionsEqual (normalize old1) (normalize old2) →
  sectionsEqual (normalize new1) (normalize new2) →
  (∃ response1 response2,
    (handleAdmissionReview (Some body1) elapsed ms).1
      = HttpOK (reviewWith response1)
    ∧ (handleAdmissionReview (Some body2) elapsed ms).1
      = HttpOK (reviewWith response2)
    ∧ resp_Allowed response1 = resp_Allowed response2
    ∧ resp_Result response1 = resp_Result response2)
  ∧ (∀ a b : gmap string value,
       a !! "metadata" = b !! "metadata" →
       a !! "spec" = b !! "spec" →
       a !! "status" = b !! "status" →
       sectionsEqual (normalize a) (normalize b)).
Proof.
  intros Hrv1 Hrq1 Hop1 Hk1 Ho1 Hn1 Hrv2 Hrq2 Hop2 Hk2 Ho2 Hn2 Hold Hnew.
  split; [|apply sectionsEqual_raw].
  rewrite (handle_update _ _ _ _ _ _ _ Hrv1 Hrq1 Hop1 Hk1 Ho1 Hn1).
  rewrite (handle_update _ _ _ _ _ _ _ Hrv2 Hrq2 Hop2 Hk2 Ho2 Hn2).
  simpl.
  assert (sectionsEqual (normalize old1) (normalize new1)
          ↔ sectionsEqual (normalize old2) (normalize new2)) as Hiff.
  { unfold sectionsEqual in *.
    destruct Hold as (-> & -> & ->), Hnew as (-> & -> & ->). done. }
  rewrite (bool_decide_ext _ _ Hiff).
  eexists _, _. split; [done|]. split; [done|].
  by case_bool_decide.
Qed.
End claims.

Section normalization.
Implicit Types obj old new : gmap string value.

(** C4. Normalizing twice is normalizing once, for the whole step and
    for each of its two functions. *)
Theorem normalization_idempotent obj :
  normalize (normalize obj) = normalize obj
  ∧ cleanupMetadata (cleanupMetadata obj) = cleanupMetadata obj
  ∧ removeReconciledAt (removeReconciledAt obj) = removeReconciledAt obj.
Proof.
  split; [apply normalize_idemp|].
  split; apply map_eq; intros k.
  - rewrite !lookup_cleanupMetadata.
    destruct (obj !! k) as [v|]; simpl; [f_equal|done].
    case_decide; [apply strip_idemp|done].
  - rewrite !lookup_removeReconciledAt.
    destruct (obj !! k) as [v|]; simpl; [f_equal|done].
    case_decide; [apply strip_idemp|done].
Qed.

(** C5, as the code has it.  A section missing from both trees is
    unchanged.  A section that one tree holds with a value other than null
    and the other tree lacks is changed.  A section that one tree holds
    as null and the other lacks is unchanged: the handler reads a missing
    section as nil, which is what null decodes to.  Below the sections a
    missing key is never taken for a present one, null or not. *)
Theorem section_presence old new sec :
  (old !! sec = None → new !! sec = None →
   sectionChanged old new sec = false)
  ∧ (∀ v, v ≠ VNull →
       (old !! sec = Some v ∧ new !! sec = None)
         ∨ (old !! sec = None ∧ new !! sec = Some v) →
       sectionChanged old new sec = true)
  ∧ ((old !! sec = Some VNull ∧ new !! sec = None)
       ∨ (old !! sec = None ∧ new !! sec = Some VNull) →
     sectionChanged old new sec = false)
  ∧ (∀ (a b : gmap string value) key,
       a !! key = None → is_Some (b !! key) →
       deepEqual (VMap a) (VMap b) = false
       ∧ deepEqual (VMap b) (VMap a) = false).
Proof.
  unfold sectionChanged. rewrite !index_normalize. unfold index.
  split; [|split; [|split]].
  - intros -> ->. done.
  - intros v Hv [[-> ->]|[-> ->]];
      apply negb_true_iff, deepEqual_false; unfold default;
      change (strip sec VNull) with VNull;
      [|apply not_eq_sym]; by apply strip_not_null.
  - intros [[-> ->]|[-> ->]]; done.
  - intros a b key Ha [v Hb].
    split; apply deepEqual_false; intros [= Hab];
      rewrite Hab in *; congruence.
Qed.

(** C10. Normalization keeps every top-level key other than "metadata"
    and "status", keeps under those two every key other than the volatile
    ones with its value, adds no key, and leaves the tree as it is when
    the entry it looks at is not a string-keyed map. *)
Theorem normalization_frame obj :
  (∀ k, k ≠ "metadata" → cleanupMetadata obj !! k = obj !! k)
  ∧ (∀ k, k ≠ "status" → removeReconciledAt obj !! k = obj !! k)
  ∧ (∀ key, key ≠ "managedFields" → key ≠ "generation" →
       path (cleanupMetadata obj) "metadata" key = path obj "metadata" key)
  ∧ (∀ key, key ≠ "reconciledAt" →
       path (removeReconciledAt obj) "status" key = path obj "status" key)
  ∧ ((∀ m, index obj "metadata" ≠ VMap m) → cleanupMetadata obj = obj)
  ∧ ((∀ m, index obj "status" ≠ VMap m) → removeReconciledAt obj = obj)
  ∧ (∀ sec, sec ≠ "metadata" → sec ≠ "status" →
       normalize obj !! sec = obj !! sec)
  ∧ (∀ sec key, volatile sec key = false →
       path (normalize obj) sec key = path obj sec key)
  ∧ (∀ sec, is_Some (normalize obj !! sec) ↔ is_Some (obj !! sec)).
Proof.
  split_and!.
  - intros k Hk. rewrite lookup_cleanupMetadata.
    rewrite decide_False by done. apply option_fmap_id.
  - intros k Hk. rewrite lookup_removeReconciledAt.
    rewrite decide_False by done. apply option_fmap_id.
  - intros key Hmf Hgen. unfold path, index.
    rewrite lookup_cleanupMetadata. simpl.
    destruct (obj !! "metadata") as [[| | | | |m]|]; simpl; try done.
    by rewrite !lookup_delete_ne.
  - intros key Hrec. unfold path, index.
    rewrite lookup_removeReconciledAt. simpl.
    destruct (obj !! "status") as [[| | | | |m]|]; simpl; try done.
    by rewrite lookup_delete_ne.
  - intros Hmap. unfold cleanupMetadata.
    destruct (index obj "metadata") as [| | | | |m]; try done.
    by destruct (Hmap m).
  - intros Hmap. unfold removeReconciledAt.
    destruct (index obj "status") as [| | | | |m]; try done.
    by destruct (Hmap m).
  - intros sec Hmd Hst. rewrite lookup_normalize.
    destruct (obj !! sec); simpl; [|done]. by rewrite strip_other.
  - intros sec key Hv. by rewrite path_normalize, Hv.
  - intros sec. rewrite lookup_normalize. apply fmap_is_Some.
Qed.
End normalization.

(** ** The claims on the scenarios *)

Ltac by_evaluation := vm_compute; reflexivity.

Lemma update_denied_iff_unchanged_witness :
  (handleAdmissionReview (H:=refjson.decoder) (Some scenarioNoop) 1%Qc noMetrics).1
  = HttpOK (reviewWith (denied "uuid")).
Proof.
  pose (old := json "{'metadata': {}, 'spec': {}, 'status': {}}").
  refine (proj1 (proj2 (proj2 (update_denied_iff_unchanged (H:=refjson.decoder)
    scenarioNoop
    (reviewFor (requestFor "uuid" "Application" "UPDATE" old old))
    (requestFor "uuid" "Application" "UPDATE" old old)
    (tree old) (tree old) 1%Qc noMetrics _ _ _ _ _ _))) _); by_evaluation.
Defined.

Lemma pass_through_allowed_witness :
  handleAdmissionReview (H:=refjson.decoder) (Some scenarioOtherKind) 1%Qc noMetrics
  = (HttpOK (reviewWith (allowed "test-uid-status-change")), noMetrics).
Proof.
  pose (old := json "{'metadata': {}, 'spec': {}, 'status': {'lastResync': '2024-03-20T12:00:00Z'}}").
  pose (new := json "{'metadata': {}, 'spec': {}, 'status': {'lastResync': '2024-03-21T12:00:00Z'}}").
  refine (proj1 (pass_through_allowed (H:=refjson.decoder)
    scenarioOtherKind
    (reviewFor (requestFor "test-uid-status-change" "GrafanaDashboard" "UPDATE" old new))
    (requestFor "test-uid-status-change" "GrafanaDashboard" "UPDATE" old new)
    1%Qc noMetrics _ _ _)); [by_evaluation..|].
  right. by intros [=].
Defined.

Lemma response_uid_echoed_witness :
  ∃ request response,
    requestOf (H:=refjson.decoder) (Some scenarioStatusChange) = Some request
    ∧ Some (allowed "test-uid-status-sync-revision-change") = Some response
    ∧ resp_UID response = req_UID request.
Proof.
  refine (response_uid_echoed (H:=refjson.decoder)
    (Some scenarioStatusChange) 1%Qc noMetrics
    (reviewWith (allowed "test-uid-status-sync-revision-change")) _).
  by_evaluation.
Defined.


(** The section "metadata" is null in the old tree and missing from the
    new one, and the handler does not flag it: the update is denied. *)
Lemma null_section_equals_missing_section :
  let old := tree (json "{'metadata': null, 'spec': {}}") in
  let new := tree (json "{'spec': {}}") in
  old !! "metadata" = Some VNull
  ∧ new !! "metadata" = None
  ∧ sectionChanged old new "metadata" = false
  ∧ (handleAdmissionReview (H:=refjson.decoder)
       (Some scenarioNullSection) 1%Qc noMetrics).1
    = HttpOK (reviewWith (denied "uid-null")).
Proof. repeat split; by_evaluation. Qed.

(** The handler denies this update, although the old tree holds an entry
    under "metadata" and the new tree holds none: under the section
    equality of the specification's words the two trees are not equal. *)
Lemma denied_with_null_against_missing_section :
  let old := tree (json "{'metadata': null, 'spec': {}}") in
  let new := tree (json "{'spec': {}}") in
  (handleAdmissionReview (H:=refjson.decoder)
     (Some scenarioNullSection) 1%Qc noMetrics).1
  = HttpOK (reviewWith (denied "uid-null"))
  ∧ normalize old !! "metadata" = Some VNull
  ∧ normalize new !! "metadata" = None
  ∧ ¬ sectionsIdentical (normalize old) (normalize new).
Proof.
  split_and!; [by_evaluation..|].
  intros (Hmd & _). vm_compute in Hmd. discriminate Hmd.
Qed.


Lemma section_presence_witness :
  sectionChanged (tree (json "{'spec': {}}")) (tree (json "{}")) "spec" = true
  ∧ sectionChanged (tree (json "{'spec': null}")) (tree (json "{}")) "spec" = false.
Proof.
  split.
  - refine (proj1 (proj2 (section_presence _ _ "spec")) (VMap ∅) _ _);
      [done|left; split; by_evaluation].
  - refine (proj1 (proj2 (proj2 (section_presence _ _ "spec"))) _).
    left; split; by_evaluation.
Defined.

(** A creation carries no old object, so its old object does not decode;
    the handler does not decode it and allows the creation. *)
Lemma creation_without_old_object_answered :
  let request :=
    requestFor "uid-create" "Application" "CREATE" ""
      (json "{'metadata': {}, 'spec': {}, 'status': {}}") in
  requestOf (H:=refjson.decoder) (Some scenarioCreate) = Some request
  ∧ unmarshalObject (Unmarshal:=refjson.decoder) (Raw (req_OldObject request)) = None
  ∧ handleAdmissionReview (H:=refjson.decoder) (Some scenarioCreate) 1%Qc noMetrics
    = (HttpOK (reviewWith (allowed "uid-create")), noMetrics).
Proof. repeat split; by_evaluation. Qed.

Lemma undecodable_input_rejected_witness :
  handleAdmissionReview (H:=refjson.decoder) (Some scenarioMalformed) 1%Qc noMetrics
    = (HttpError "failed to unmarshal request" 400, noMetrics)
  ∧ ∃ msg,
      handleAdmissionReview (H:=refjson.decoder)
        (Some scenarioNoOldObject) 1%Qc noMetrics
      = (HttpError msg 500, noMetrics).
Proof.
  pose (new := json "{'metadata': {}, 'spec': {}, 'status': {}}").
  split.
  - refine (proj1 (undecodable_input_rejected (H:=refjson.decoder)
      scenarioMalformed 1%Qc noMetrics) _). by_evaluation.
  - refine (proj1 (proj2 (undecodable_input_rejected (H:=refjson.decoder)
      scenarioNoOldObject 1%Qc noMetrics))
      (reviewFor (requestFor "uid-no-old" "Application" "UPDATE" "" new))
      (requestFor "uid-no-old" "Application" "UPDATE" "" new) _ _ _ _ _);
      [by_evaluation..|].
    left. by_evaluation.
Defined.

(** C7. A well-formed review without a request: the body decodes, the
    request pointer is nil, and the handler dereferences it when it builds
    the default response.  It panics: it writes no status, neither 4xx
    nor 5xx, and sends no review. *)
Theorem missing_request_panics :
  (∃ review,
     unmarshalReview (Unmarshal:=refjson.decoder) scenarioNoRequest = Some review
     ∧ rv_Request review = None)
  ∧ handleAdmissionReview (H:=refjson.decoder)
      (Some scenarioNoRequest) 1%Qc noMetrics
    = (Panic, noMetrics)
  ∧ ∀ msg code,
      (handleAdmissionReview (H:=refjson.decoder)
         (Some scenarioNoRequest) 1%Qc noMetrics).1
      ≠ HttpError msg code.
Proof.
  assert (handleAdmissionReview (H:=refjson.decoder)
            (Some scenarioNoRequest) 1%Qc noMetrics = (Panic, noMetrics))
    as Hpanic by by_evaluation.
  split_and!.
  - eexists. split; by_evaluation.
  - done.
  - intros msg code. by rewrite Hpanic.
Qed.

(** One creation, answered and not failed: N = 1 and M = 0, and the
    counter "false" reads 0. *)
Lemma pass_through_not_counted :
  let calls := [(Some scenarioCreate, 1%Qc)] in
  let '(outs, ms') := serve (H:=refjson.decoder) calls noMetrics in
  outs = [HttpOK (reviewWith (allowed "uid-create"))]
  ∧ Forall (λ out, errored out = false) outs
  ∧ tally (decidedChanged (H:=refjson.decoder)) calls outs = 0%nat
  ∧ counter ms' "true" = 0%nat
  ∧ counter ms' "false" = 0%nat
  ∧ counter ms' "false"
    ≠ (length calls - tally (decidedChanged (H:=refjson.decoder)) calls outs)%nat.
Proof.
  vm_compute. repeat split; try done. repeat constructor.
Qed.

Lemma counters_tally_decisions_witness :
  let calls :=
    [(Some scenarioNoop, 1%Qc); (Some scenarioStatusChange, 1%Qc);
     (Some scenarioCreate, 1%Qc); (Some scenarioMalformed, 1%Qc);
     (Some scenarioVolatile, 1%Qc)] in
  counter (serve (H:=refjson.decoder) calls noMetrics).2 "true" = 1%nat
  ∧ counter (serve (H:=refjson.decoder) calls noMetrics).2 "false" = 2%nat.
Proof.
  intros calls.
  pose proof (counters_tally_decisions (H:=refjson.decoder) calls noMetrics)
    as Hrun.
  destruct (serve calls noMetrics) as [outs ms'] eqn:Hserve.
  destruct Hrun as (_ & Htrue & Hfalse & _).
  assert (outs = (serve (H:=refjson.decoder) calls noMetrics).1) as ->
    by (by rewrite Hserve).
  simpl. rewrite Htrue, Hfalse. split; by_evaluation.
Defined.

Lemma decision_depends_on_sections_witness :
  ∃ response1 response2,
    (handleAdmissionReview (H:=refjson.decoder)
       (Some scenarioOtherKey) 1%Qc noMetrics).1 = HttpOK (reviewWith response1)
    ∧ (handleAdmissionReview (H:=refjson.decoder)
         (Some scenarioSameSections) 1%Qc noMetrics).1 = HttpOK (reviewWith response2)
    ∧ resp_Allowed response1 = resp_Allowed response2
    ∧ resp_Result response1 = resp_Result response2.
Proof.
  pose (old1 := json "{'kind': 'Application', 'metadata': {'name': 'app'}, 'spec': {}}").
  pose (new1 := json "{'kind': 'App', 'operation': {'sync': {}}, 'metadata': {'name': 'app'}, 'spec': {}}").
  pose (old2 := json "{'metadata': {'name': 'app'}, 'spec': {}}").
  refine (proj1 (decision_depends_on_sections (H:=refjson.decoder)
    scenarioOtherKey
    (reviewFor (requestFor "uid-other-key" "Application" "UPDATE" old1 new1))
    (requestFor "uid-other-key" "Application" "UPDATE" old1 new1)
    (tree old1) (tree new1)
    scenarioSameSections
    (reviewFor (requestFor "uid-same-sections" "Application" "UPDATE" old2 old2))
    (requestFor "uid-same-sections" "Application" "UPDATE" old2 old2)
    (tree old2) (tree old2)
    1%Qc noMetrics _ _ _ _ _ _ _ _ _ _ _ _ _ _)); try by_evaluation.
  all: apply sectionsEqual_raw; by_evaluation.
Defined.

Lemma normalization_frame_witness :
  let obj := tree (json "{'metadata': {'name': 'app', 'generation': 2}, 'status': 'Synced'}") in
  path (normalize obj) "metadata" "name" = Some (VString "app")
  ∧ removeReconciledAt obj = obj.
Proof.
  intros obj.
  destruct (normalization_frame obj)
    as (_ & _ & _ & _ & _ & Hstatus & _ & Hpath & _).
  split.
  - by rewrite Hpath.
  - apply Hstatus. intros m. vm_compute. discriminate.
Defined.

(** The requests of the test suite. *)
Example test_StatusSyncRevisionChange :
  (handleAdmissionReview (H:=refjson.decoder)
     (Some scenarioStatusChange) 1%Qc noMetrics).1
  = HttpOK (reviewWith (allowed "test-uid-status-sync-revision-change")).
Proof. by_evaluation. Qed.

(** ** The debug trace: facts *)

Section trace_facts.
Context `{MapRange}.

Lemma elem_of_rangeMap (m : gmap string value) (k : string) (v : value) :
  (k, v) ∈ rangeMap m ↔ m !! k = Some v.
Proof. rewrite rangeMap_perm. apply elem_of_map_to_list. Qed.

Lemma NoDup_rangeMap_keys (m : gmap string value) : NoDup (rangeMap m).*1.
Proof. rewrite rangeMap_perm. apply NoDup_fst_map_to_list. Qed.

Lemma printDifferences_unfold owner oldMap newMap :
  printDifferences owner oldMap newMap
  = if decide (oldMap = None ∧ newMap = None) then []
    else header owner :: keyEntries (entriesOf oldMap) (entriesOf newMap).
Proof.
  unfold printDifferences, keyEntries.
  destruct oldMap, newMap; case_decide as Hnil; try reflexivity;
    try (by destruct Hnil as [? ?]).
  by destruct Hnil.
Qed.

Lemma elem_of_keyEntries (old new : gmap string value) (e : LogEntry) :
  e ∈ keyEntries old new
  ↔ (∃ key oldValue,
       old !! key = Some oldValue
       ∧ match new !! key with
         | Some newValue =>
             oldValue ≠ newValue ∧ e = KeyChanged key oldValue newValue
         | None => e = KeyRemoved key oldValue
         end)
    ∨ (∃ key newValue,
         new !! key = Some newValue ∧ old !! key = None
         ∧ e = KeyAdded key newValue).
Proof.
  unfold keyEntries. rewrite elem_of_app, !list_elem_of_bind. f_equiv.
  - split.
    + intros ([key oldValue] & He & Hin). apply elem_of_rangeMap in Hin.
      exists key, oldValue. split; [done|].
      destruct (new !! key) as [newValue|]; [|by apply list_elem_of_singleton].
      destruct (deepEqual oldValue newValue) eqn:Heq; simpl in He.
      * by apply elem_of_nil in He.
      * apply list_elem_of_singleton in He. by apply deepEqual_false in Heq.
    + intros (key & oldValue & Hin & He). exists (key, oldValue).
      split; [|by apply elem_of_rangeMap].
      destruct (new !! key) as [newValue|]; [|by apply list_elem_of_singleton].
      destruct He as [Hne ->]. apply deepEqual_false in Hne. rewrite Hne.
      by apply list_elem_of_singleton.
  - split.
    + intros ([key newValue] & He & Hin). apply elem_of_rangeMap in Hin.
      exists key, newValue. split; [done|].
      destruct (old !! key); [by apply elem_of_nil in He|].
      by apply list_elem_of_singleton in He.
    + intros (key & newValue & Hin & Hnone & ->). exists (key, newValue).
      split; [|by apply elem_of_rangeMap]. rewrite Hnone.
      by apply list_elem_of_singleton.
Qed.

(** What [keyEntries] holds for one key. *)
Lemma keyEntries_key (old new : gmap string value) (e : LogEntry) (key : string) :
  e ∈ keyEntries old new → entryKey e = Some key →
  match old !! key, new !! key with
  | Some o, Some n => o ≠ n ∧ e = KeyChanged key o n
  | Some o, None => e = KeyRemoved key o
  | None, Some n => e = KeyAdded key n
  | None, None => False
  end.
Proof.
  rewrite elem_of_keyEntries.
  intros [(k & o & Ho & He)|(k & n & Hn & Ho & ->)] Hkey.
  - destruct (new !! k) as [n|] eqn:Hn.
    + destruct He as [Hne ->]. injection Hkey as <-. by rewrite Ho, Hn.
    + subst e. injection Hkey as <-. by rewrite Ho, Hn.
  - injection Hkey as <-. by rewrite Ho, Hn.
Qed.

Lemma keyEntries_keyed (old new : gmap string value) (e : LogEntry) :
  e ∈ keyEntries old new → is_Some (entryKey e).
Proof.
  rewrite elem_of_keyEntries.
  intros [(k & o & _ & He)|(k & n & _ & _ & ->)]; [|by eexists].
  destruct (new !! k); [destruct He as [_ ->]|subst e]; by eexists.
Qed.

(** A key has an entry exactly when the two maps differ at it. *)
Lemma keyEntries_reported (old new : gmap string value) (key : string) :
  Some key ∈ entryKey <$> keyEntries old new ↔ old !! key ≠ new !! key.
Proof.
  rewrite list_elem_of_fmap. split.
  - intros (e & Hkey & He). symmetry in Hkey.
    pose proof (keyEntries_key _ _ _ _ He Hkey) as Hcase.
    destruct (old !! key), (new !! key); [|done..].
    destruct Hcase as [Hne _]. congruence.
  - intros Hne. destruct (old !! key) as [o|] eqn:Ho, (new !! key) as [n|] eqn:Hn.
    + exists (KeyChanged key o n). split; [done|].
      apply elem_of_keyEntries. left. exists key, o. rewrite Ho, Hn.
      split; [done|]. split; [congruence|done].
    + exists (KeyRemoved key o). split; [done|].
      apply elem_of_keyEntries. left. exists key, o. by rewrite Ho, Hn.
    + exists (KeyAdded key n). split; [done|].
      apply elem_of_keyEntries. right. by exists key, n.
    + done.
Qed.

Lemma keyEntries_nil (old new : gmap string value) :
  keyEntries old new = [] ↔ old = new.
Proof.
  split.
  - intros Hnil. apply map_eq. intros key.
    destruct (decide (old !! key = new !! key)) as [|Hne]; [done|].
    apply keyEntries_reported in Hne. rewrite Hnil in Hne.
    by apply elem_of_nil in Hne.
  - intros <-. apply elem_of_nil_inv. intros e He.
    pose proof (keyEntries_keyed _ _ _ He) as [key Hkey].
    assert (Some key ∈ entryKey <$> keyEntries old old) as Hin
      by (rewrite <-Hkey; by apply list_elem_of_fmap_2).
    by apply keyEntries_reported in Hin.
Qed.

Lemma omap_entryKey_bind (f : string * value → list LogEntry)
    (l : list (string * value)) :
  (∀ k v, omap entryKey (f (k, v)) = [] ∨ omap entryKey (f (k, v)) = [k]) →
  omap entryKey (l ≫= f) `sublist_of` l.*1.
Proof.
  intros Hf. induction l as [|[k v] l IH]; [done|].
  rewrite bind_cons, omap_app. simpl.
  destruct (Hf k v) as [-> | ->]; simpl.
  - by apply sublist_cons.
  - by apply sublist_skip.
Qed.

Lemma NoDup_keyEntries (old new : gmap string value) :
  NoDup (omap entryKey (keyEntries old new)).
Proof.
  unfold keyEntries. rewrite omap_app. apply list.NoDup_app. split_and!.
  - apply (sublist_NoDup _ (rangeMap old).*1); [apply NoDup_rangeMap_keys|].
    apply omap_entryKey_bind. intros k v.
    destruct (new !! k); [destruct (negb _)|]; auto.
  - intros key Hold Hnew.
    apply list_elem_of_omap in Hold as (e & He & Hkey).
    apply list_elem_of_omap in Hnew as (e' & He' & Hkey').
    apply list_elem_of_bind in He as ([k v] & He & Hin).
    apply elem_of_rangeMap in Hin.
    apply list_elem_of_bind in He' as ([k' v'] & He' & _).
    assert (k = key) as ->.
    { destruct (new !! k); [destruct (negb _)|];
        apply list_elem_of_singleton in He || apply elem_of_nil in He;
        try done; subst e; by injection Hkey. }
    destruct (old !! k') eqn:Hk'; [by apply elem_of_nil in He'|].
    apply list_elem_of_singleton in He'. subst e'. injection Hkey' as ->.
    congruence.
  - apply (sublist_NoDup _ (rangeMap new).*1); [apply NoDup_rangeMap_keys|].
    apply omap_entryKey_bind. intros k v.
    destruct (old !! k); auto.
Qed.

Lemma printDifferences_keys owner oldMap newMap (key : string) :
  Some key ∈ entryKey <$> printDifferences owner oldMap newMap
  ↔ entriesOf oldMap !! key ≠ entriesOf newMap !! key.
Proof.
  rewrite printDifferences_unfold. case_decide as Hnil.
  - destruct Hnil as [-> ->]. rewrite fmap_nil, elem_of_nil.
    split; [done|]. intros Hne. by destruct Hne.
  - rewrite fmap_cons, elem_of_cons. rewrite keyEntries_reported.
    simpl. split; [by intros [[=]|?]|by right].
Qed.

Lemma path_entriesOf (obj : gmap string value) (sec key : string) :
  entriesOf (asMap (index obj sec)) !! key = path obj sec key.
Proof. unfold path. by destruct (index obj sec). Qed.

(** The keys one section contributes to the trace of an update. *)
Lemma section_keys owner (a b : gmap string value) (sec key : string) :
  Some key ∈ entryKey <$>
    (if negb (deepEqual (index a sec) (index b sec))
     then printDifferences owner (asMap (index a sec)) (asMap (index b sec))
     else [])
  ↔ path a sec key ≠ path b sec key.
Proof.
  rewrite deepEqual_decide. case_bool_decide as Heq; simpl.
  - rewrite elem_of_nil. unfold path. rewrite Heq.
    split; [done|]. intros Hne. by destruct Hne.
  - by rewrite printDifferences_keys, !path_entriesOf.
Qed.

Lemma updateTrace_keys (a b : gmap string value) (key : string) :
  Some key ∈ entryKey <$> updateTrace a b
  ↔ ∃ sec, tracked sec ∧ path a sec key ≠ path b sec key.
Proof.
  unfold updateTrace. case_bool_decide as Heq.
  - simpl. rewrite list_elem_of_singleton. split; [done|].
    intros (sec & Hsec & Hne). destruct Hne. unfold path.
    destruct Heq as (Hmd & Hspec & Hst).
    destruct Hsec as [-> |[-> | ->]]; by rewrite ?Hmd, ?Hspec, ?Hst.
  - unfold printMetadataDifferences, printSpecDifferences,
      printStatusDifferences.
    rewrite !fmap_app, !elem_of_app, !section_keys. unfold tracked.
    split.
    + intros [Hk|[Hk|Hk]];
        [exists "metadata"|exists "spec"|exists "status"]; auto.
    + intros (sec & [-> |[-> | ->]] & Hk); auto.
Qed.

Section traced.
Context `{Unmarshal}.

(** The traced handler is the handler, with a trace. *)
Lemma traced_erase body elapsed ms :
  (handleAdmissionReviewTraced body elapsed ms).1
  = handleAdmissionReview body elapsed ms.
Proof.
  unfold handleAdmissionReviewTraced, handleAdmissionReview.
  destruct body as [body|]; [|done].
  destruct (unmarshalReview body) as [review|]; [|done].
  destruct (rv_Request review) as [request|]; [|done].
  destruct (_ || _); [done|].
  destruct (unmarshalObject (Raw (req_OldObject request))); [|done].
  destruct (unmarshalObject (Raw (req_Object request))); [|done].
  by destruct (_ && _).
Qed.

Lemma traced_update body request oldObj newObj elapsed ms :
  watchedUpdate body request oldObj newObj →
  (handleAdmissionReviewTraced (Some body) elapsed ms).2
  = updateTrace (normalize oldObj) (normalize newObj).
Proof.
  intros ((review & Hreview & Hrequest) & Hop & Hkind & Hold & Hnew).
  unfold handleAdmissionReviewTraced.
  rewrite Hreview, Hrequest, Hop, Hkind, Hold, Hnew.
  rewrite !bool_decide_eq_false_2 by (intros ?; done). simpl.
  fold (normalize oldObj) (normalize newObj).
  unfold updateTrace, sectionsEqual. rewrite !deepEqual_decide.
  repeat case_bool_decide; simpl; try done; tauto.
Qed.

Lemma traced_silent body elapsed ms :
  errored (handleAdmissionReview body elapsed ms).1 = true
    ∨ watched body = false →
  (handleAdmissionReviewTraced body elapsed ms).2 = [].
Proof.
  unfold handleAdmissionReviewTraced, handleAdmissionReview, watched, requestOf.
  destruct body as [body|]; [simpl|done].
  destruct (unmarshalReview body) as [review|]; [simpl|done].
  destruct (rv_Request review) as [request|]; [|done].
  destruct (decide (req_Operation request = admissionv1.Update)) as [Hop|Hop];
    [destruct (decide (gvk_Kind (req_Kind request) = "Application"))
       as [Hkind|Hkind]|].
  - rewrite !bool_decide_eq_false_2 by (intros ?; done).
    rewrite !bool_decide_eq_true_2 by done. simpl.
    destruct (unmarshalObject (Raw (req_OldObject request))); [|done].
    destruct (unmarshalObject (Raw (req_Object request))); [|done].
    destruct (_ && _); simpl; by intros [[=]|[=]].
  - rewrite (bool_decide_eq_true_2 (gvk_Kind _ ≠ _)) by done.
    by rewrite orb_true_r.
  - by rewrite bool_decide_eq_true_2.
Qed.
End traced.
End trace_facts.

(** ** Further properties of the handler *)

Section further.
Context `{Unmarshal}.

Lemma handle_watchedUpdate body request oldObj newObj elapsed ms :
  watchedUpdate body request oldObj newObj →
  handleAdmissionReview (Some body) elapsed ms
  = let changed :=
      negb (bool_decide (sectionsEqual (normalize oldObj) (normalize newObj))) in
    (HttpOK (reviewWith
       (if changed then allowed (req_UID request) else denied (req_UID request))),
     Observe (fmt_bool changed) elapsed (Inc (fmt_bool changed) ms)).
Proof.
  intros ((review & Hreview & Hrequest) & Hop & Hkind & Hold & Hnew).
  by eapply handle_update.
Qed.

Lemma watchedUpdate_watched body request oldObj newObj :
  watchedUpdate body request oldObj newObj →
  requestOf (Some body) = Some request ∧ watched (Some body) = true.
Proof.
  intros ((review & Hreview & Hrequest) & Hop & Hkind & _).
  assert (requestOf (Some body) = Some request) as Hreq.
  { unfold requestOf. simpl. by rewrite Hreview. }
  split; [done|]. unfold watched. rewrite Hreq.
  by rewrite !bool_decide_eq_true_2.
Qed.

(** X1. A watched update whose old and new trees read differently under
    "spec", a missing "spec" being read as null, is allowed, without a
    result, and counted as changed: normalization does not touch "spec". *)
Theorem spec_difference_allowed body request oldObj newObj elapsed ms :
  watchedUpdate body request oldObj newObj →
  index oldObj "spec" ≠ index newObj "spec" →
  handleAdmissionReview (Some body) elapsed ms
  = (HttpOK (reviewWith (allowed (req_UID request))),
     Observe "true" elapsed (Inc "true" ms)).
Proof.
  intros Hupdate Hspec. rewrite (handle_watchedUpdate _ _ _ _ _ _ Hupdate).
  simpl. rewrite bool_decide_eq_false_2; [done|].
  intros (_ & Heq & _). rewrite !index_normalize in Heq.
  by rewrite !strip_other in Heq.
Qed.

(** X2. A watched update is allowed as soon as old and new differ at one
    key of "metadata", "spec" or "status" that is not volatile, whether the
    key changed its value, was added or was removed. *)
Theorem nonvolatile_difference_allowed
    body request oldObj newObj elapsed ms sec key :
  watchedUpdate body request oldObj newObj →
  tracked sec →
  volatile sec key = false →
  path oldObj sec key ≠ path newObj sec key →
  handleAdmissionReview (Some body) elapsed ms
  = (HttpOK (reviewWith (allowed (req_UID request))),
     Observe "true" elapsed (Inc "true" ms)).
Proof.
  intros Hupdate Hsec Hvol Hpath.
  rewrite (handle_watchedUpdate _ _ _ _ _ _ Hupdate).
  simpl. rewrite bool_decide_eq_false_2; [done|].
  intros (Hmd & Hspec & Hst). destruct Hpath.
  pose proof (path_normalize oldObj sec key) as Hold.
  pose proof (path_normalize newObj sec key) as Hnew.
  rewrite Hvol in Hold, Hnew. rewrite <-Hold, <-Hnew. unfold path.
  destruct Hsec as [-> |[-> | ->]]; by rewrite ?Hmd, ?Hspec, ?Hst.
Qed.

(** X3. The decision is symmetric: the update from one tree to another and
    the update back get the same allowed flag, the same result and the
    same label. *)
Theorem decision_symmetric
    body1 request1 body2 request2 oldObj newObj elapsed ms :
  watchedUpdate body1 request1 oldObj newObj →
  watchedUpdate body2 request2 newObj oldObj →
  ∃ changed : bool,
    handleAdmissionReview (Some body1) elapsed ms
    = (HttpOK (reviewWith
         (if changed
          then allowed (req_UID request1) else denied (req_UID request1))),
       Observe (fmt_bool changed) elapsed (Inc (fmt_bool changed) ms))
    ∧ handleAdmissionReview (Some body2) elapsed ms
      = (HttpOK (reviewWith
           (if changed
            then allowed (req_UID request2) else denied (req_UID request2))),
         Observe (fmt_bool changed) elapsed (Inc (fmt_bool changed) ms)).
Proof.
  intros Hupdate1 Hupdate2.
  rewrite (handle_watchedUpdate _ _ _ _ _ _ Hupdate1).
  rewrite (handle_watchedUpdate _ _ _ _ _ _ Hupdate2). simpl.
  exists (negb (bool_decide (sectionsEqual (normalize oldObj) (normalize newObj)))).
  split; [done|].
  assert (sectionsEqual (normalize newObj) (normalize oldObj)
          ↔ sectionsEqual (normalize oldObj) (normalize newObj)) as Hsym.
  { unfold sectionsEqual. intuition congruence. }
  by rewrite (bool_decide_ext _ _ Hsym).
Qed.

(** X4. Denials compose: when the update from a first tree to a second
    and the update from the second to a third are both denied, the update
    from the first to the third is denied. *)
Theorem denial_transitive
    body1 request1 body2 request2 body3 request3 a b c elapsed ms :
  watchedUpdate body1 request1 a b →
  watchedUpdate body2 request2 b c →
  watchedUpdate body3 request3 a c →
  (handleAdmissionReview (Some body1) elapsed ms).1
    = HttpOK (reviewWith (denied (req_UID request1))) →
  (handleAdmissionReview (Some body2) elapsed ms).1
    = HttpOK (reviewWith (denied (req_UID request2))) →
  (handleAdmissionReview (Some body3) elapsed ms).1
    = HttpOK (reviewWith (denied (req_UID request3))).
Proof.
  intros Hupdate1 Hupdate2 Hupdate3.
  rewrite (handle_watchedUpdate _ _ _ _ _ _ Hupdate1).
  rewrite (handle_watchedUpdate _ _ _ _ _ _ Hupdate2).
  rewrite (handle_watchedUpdate _ _ _ _ _ _ Hupdate3). simpl.
  destruct (decide (sectionsEqual (normalize a) (normalize b))) as [Hab|Hab];
    [|rewrite (bool_decide_eq_false_2 _ Hab); by intros [=]].
  destruct (decide (sectionsEqual (normalize b) (normalize c))) as [Hbc|Hbc];
    [|rewrite (bool_decide_eq_false_2 _ Hbc); by intros _ [=]].
  intros _ _. rewrite bool_decide_eq_true_2; [done|].
  unfold sectionsEqual in *. intuition congruence.
Qed.

(** X8. The handler panics exactly when the body is read and decodes to a
    review that carries no request. *)
Theorem panics_iff_request_missing body elapsed ms :
  (handleAdmissionReview body elapsed ms).1 = Panic
  ↔ ∃ b review,
      body = Some b ∧ unmarshalReview b = Some review
      ∧ rv_Request review = None.
Proof.
  split.
  - unfold handleAdmissionReview.
    destruct body as [b|]; [|done].
    destruct (unmarshalReview b) as [review|] eqn:Hreview; [|done].
    destruct (rv_Request review) as [request|] eqn:Hrequest; [|by eauto].
    destruct (_ || _); [done|].
    destruct (unmarshalObject (Raw (req_OldObject request))); [|done].
    destruct (unmarshalObject (Raw (req_Object request))); [|done].
    by destruct (_ && _).
  - intros (b & review & -> & Hreview & Hrequest).
    by rewrite (handle_no_request _ _ _ _ Hreview Hrequest).
Qed.
End further.

Section further_outcomes.
Context `{Unmarshal}.

(** A call is a watched update with its two trees decoded, or it fails or
    does not pass the filter. *)
Lemma update_or_silent body elapsed ms :
  (∃ b request oldObj newObj,
     body = Some b ∧ watchedUpdate b request oldObj newObj)
  ∨ (errored (handleAdmissionReview body elapsed ms).1 = true
     ∨ watched body = false).
Proof.
  unfold handleAdmissionReview, watched, requestOf, watchedUpdate.
  destruct body as [b|]; simpl; [|by auto].
  destruct (unmarshalReview b) as [review|] eqn:Hreview; simpl; [|by auto].
  destruct (rv_Request review) as [request|] eqn:Hrequest; [|by auto].
  destruct (decide (req_Operation request = admissionv1.Update)) as [Hop|Hop];
    [destruct (decide (gvk_Kind (req_Kind request) = "Application"))
       as [Hkind|Hkind]|].
  - rewrite !bool_decide_eq_false_2 by (intros ?; done). simpl.
    destruct (unmarshalObject (Raw (req_OldObject request))) as [oldObj|]
      eqn:Hold; [|by auto].
    destruct (unmarshalObject (Raw (req_Object request))) as [newObj|]
      eqn:Hnew; [|by auto].
    left. exists b, request, oldObj, newObj. eauto 10.
  - right; right. rewrite (bool_decide_eq_false_2 (gvk_Kind _ = _)) by done.
    apply andb_false_r.
  - right; right. by rewrite bool_decide_eq_false_2.
Qed.

(** X9. Every error status of the handler, with its cause: 500 for a body
    that cannot be read, 400 for a body that does not decode, and 500 for a
    watched update whose old object, or else whose new object, does not
    decode.  The old object is decoded first. *)
Theorem error_statuses body elapsed ms msg code :
  (handleAdmissionReview body elapsed ms).1 = HttpError msg code →
  (body = None ∧ msg = "failed to read request body" ∧ code = 500)
  ∨ ((∃ b, body = Some b ∧ unmarshalReview b = None)
     ∧ msg = "failed to unmarshal request" ∧ code = 400)
  ∨ (watched body = true ∧ code = 500
     ∧ ∃ request,
         requestOf body = Some request
         ∧ ((unmarshalObject (Raw (req_OldObject request)) = None
             ∧ msg = "failed to parse old object")
            ∨ (is_Some (unmarshalObject (Raw (req_OldObject request)))
               ∧ unmarshalObject (Raw (req_Object request)) = None
               ∧ msg = "failed to parse new object"))).
Proof.
  unfold handleAdmissionReview, watched, requestOf.
  destruct body as [b|]; simpl; [|intros [= <- <-]; by left].
  destruct (unmarshalReview b) as [review|] eqn:Hreview; simpl;
    [|intros [= <- <-]; right; left; eauto].
  destruct (rv_Request review) as [request|] eqn:Hrequest; [|done].
  destruct (decide (req_Operation request = admissionv1.Update)) as [Hop|Hop];
    [destruct (decide (gvk_Kind (req_Kind request) = "Application"))
       as [Hkind|Hkind]|].
  - rewrite !bool_decide_eq_false_2 by (intros ?; done).
    rewrite !bool_decide_eq_true_2 by done. simpl.
    destruct (unmarshalObject (Raw (req_OldObject request))) eqn:Hold;
      [|intros [= <- <-]; right; right; eauto 10].
    destruct (unmarshalObject (Raw (req_Object request))) eqn:Hnew;
      [|intros [= <- <-]; right; right; eauto 10].
    by destruct (_ && _).
  - rewrite (bool_decide_eq_true_2 (gvk_Kind _ ≠ _)) by done.
    by rewrite orb_true_r.
  - by rewrite bool_decide_eq_true_2.
Qed.

(** X10. The handler has two responses only.  A review it answers with
    carries no request, and its response is either the allowance, without
    a result, or the denial, with status "Success", message
    "Update successful." and code 200, each with the identifier of the
    request. *)
Theorem response_shapes body elapsed ms review :
  (handleAdmissionReview body elapsed ms).1 = HttpOK review →
  ∃ request,
    requestOf body = Some request
    ∧ (review = reviewWith (allowed (req_UID request))
       ∨ (watched body = true
          ∧ review = reviewWith (denied (req_UID request)))).
Proof.
  pose proof (handle_cases body elapsed ms) as Hcases.
  destruct (handleAdmissionReview body elapsed ms) as [out ms']. simpl.
  intros ->.
  destruct Hcases as [[[=] _]|[(_ & _ & request & Hreq & [= ->])
                              |(Hw & request & changed & Hreq & [= ->] & _)]].
  - exists request. auto.
  - exists request. split; [done|]. destruct changed; auto.
Qed.

(** X11. The answer to a call depends neither on the vectors nor on the
    time the call took, so in a run every call is answered as it would be
    alone. *)
Theorem outcome_independent_of_state body elapsed ms elapsed' ms' calls :
  (handleAdmissionReview body elapsed ms).1
    = (handleAdmissionReview body elapsed' ms').1
  ∧ (serve calls ms).1
    = (λ call, (handleAdmissionReview call.1 call.2 noMetrics).1) <$> calls.
Proof.
  assert (∀ b e m e' m',
    (handleAdmissionReview b e m).1 = (handleAdmissionReview b e' m').1)
    as Hind.
  { intros b e m e' m'. unfold handleAdmissionReview.
    destruct b as [b|]; [|done].
    destruct (unmarshalReview b) as [review|]; [|done].
    destruct (rv_Request review) as [request|]; [|done].
    destruct (_ || _); [done|].
    destruct (unmarshalObject (Raw (req_OldObject request))); [|done].
    destruct (unmarshalObject (Raw (req_Object request))); [|done].
    by destruct (_ && _). }
  split; [apply Hind|].
  revert ms. induction calls as [|[b e] calls IH]; intros ms; [done|].
  rewrite fmap_cons. cbn [serve].
  pose proof (Hind b e ms e noMetrics) as Hb.
  destruct (handleAdmissionReview b e ms) as [out ms1].
  specialize (IH ms1). destruct (serve calls ms1) as [outs ms2].
  simpl in *. by rewrite Hb, IH.
Qed.

(** X7. The histogram and the counter move together: when every label has
    as many observations as its counter reads, it still has after any run.
    From the empty vectors on, each label has been observed as often as it
    has been counted. *)
Theorem histogram_matches_counter calls ms :
  (∀ label, observations ms label = counter ms label) →
  ∀ label,
    observations (serve calls ms).2 label = counter (serve calls ms).2 label.
Proof.
  revert ms. induction calls as [|[b e] calls IH]; intros ms; [done|].
  intros Hinv. simpl.
  pose proof (handle_cases b e ms) as Hcases.
  destruct (handleAdmissionReview b e ms) as [out ms1].
  specialize (IH ms1). destruct (serve calls ms1) as [outs ms2].
  simpl in *. apply IH. clear IH.
  destruct Hcases as [[_ ->]|[(_ & -> & _)|(_ & ? & changed & _ & _ & ->)]];
    [done..|].
  intros label. unfold observations at 1. simpl.
  rewrite counter_Observe, counter_Inc, lookup_insert.
  case_decide as Hlabel; simpl.
  - rewrite length_app. simpl. subst label.
    fold (observations ms (fmt_bool changed)). rewrite Hinv. lia.
  - apply Hinv.
Qed.
End further_outcomes.

Section further_normalization.
Implicit Types obj : gmap string value.

(** X5. The two normalization functions commute, so the order in which
    the handler calls them on a tree does not matter. *)
Theorem cleanup_remove_commute obj :
  removeReconciledAt (cleanupMetadata obj)
  = cleanupMetadata (removeReconciledAt obj).
Proof.
  apply map_eq. intros k.
  rewrite !lookup_removeReconciledAt, !lookup_cleanupMetadata.
  rewrite lookup_removeReconciledAt.
  destruct (obj !! k); simpl; [f_equal|done].
  by repeat case_decide; simplify_eq.
Qed.

(** X6. Normalization leaves a tree as it is exactly when the tree has
    none of the three volatile paths. *)
Theorem normalize_fixpoint_iff obj :
  normalize obj = obj
  ↔ ∀ sec key, volatile sec key = true → path obj sec key = None.
Proof.
  split; [|apply normalize_absent].
  intros Hfix sec key Hvol. rewrite <-Hfix.
  by rewrite path_normalize, Hvol.
Qed.
End further_normalization.

(** ** Further properties of the trace *)

Section further_trace.
Context `{MapRange}.

(** X12. What [printDifferences] reports for a key: a change when both
    maps hold the key with different values, a removal when only the old
    map holds it, an addition when only the new map holds it, each with
    the values held; a nil map holds no key. *)
Theorem printDifferences_reports owner oldMap newMap key :
  let log := printDifferences owner oldMap newMap in
  (∀ oldValue newValue,
     KeyChanged key oldValue newValue ∈ log
     ↔ entriesOf oldMap !! key = Some oldValue
       ∧ entriesOf newMap !! key = Some newValue
       ∧ oldValue ≠ newValue)
  ∧ (∀ oldValue,
       KeyRemoved key oldValue ∈ log
       ↔ entriesOf oldMap !! key = Some oldValue
         ∧ entriesOf newMap !! key = None)
  ∧ (∀ newValue,
       KeyAdded key newValue ∈ log
       ↔ entriesOf oldMap !! key = None
         ∧ entriesOf newMap !! key = Some newValue).
Proof.
  assert (∀ e, is_Some (entryKey e) →
    e ∈ printDifferences owner oldMap newMap
    ↔ e ∈ keyEntries (entriesOf oldMap) (entriesOf newMap)) as Hlog.
  { intros e [k Hk]. rewrite printDifferences_unfold. case_decide as Hnil.
    - destruct Hnil as [-> ->]. rewrite elem_of_nil. split; [done|].
      intros He. apply (keyEntries_key _ _ _ k) in He; [|done].
      unfold entriesOf in He. simpl in He. by rewrite lookup_empty in He.
    - rewrite elem_of_cons. split; [|by right].
      intros [->|]; [discriminate|done]. }
  simpl. split_and!.
  - intros o n. rewrite Hlog by (by eexists). split.
    + intros He. apply (keyEntries_key _ _ _ key) in He; [|done].
      destruct (entriesOf oldMap !! key), (entriesOf newMap !! key);
        try done. by destruct He as [? [= -> ->]].
    + intros (Ho & Hn & Hne). apply elem_of_keyEntries. left.
      exists key, o. by rewrite Ho, Hn.
  - intros o. rewrite Hlog by (by eexists). split.
    + intros He. apply (keyEntries_key _ _ _ key) in He; [|done].
      destruct (entriesOf oldMap !! key), (entriesOf newMap !! key);
        try done; [by destruct He|by injection He as ->].
    + intros (Ho & Hn). apply elem_of_keyEntries. left.
      exists key, o. by rewrite Ho, Hn.
  - intros n. rewrite Hlog by (by eexists). split.
    + intros He. apply (keyEntries_key _ _ _ key) in He; [|done].
      destruct (entriesOf oldMap !! key), (entriesOf newMap !! key);
        try done; [by destruct He|by injection He as ->].
    + intros (Ho & Hn). apply elem_of_keyEntries. right. by exists key, n.
Qed.

(** X13. [printDifferences] logs nothing exactly when both maps are nil.
    Otherwise its first entry is the header, every other entry reports a
    key, and the header stands alone exactly when the two maps hold the
    same entries: an empty map against a nil map gives a header and no
    key. *)
Theorem printDifferences_header owner oldMap newMap :
  let log := printDifferences owner oldMap newMap in
  (log = [] ↔ oldMap = None ∧ newMap = None)
  ∧ (¬ (oldMap = None ∧ newMap = None) →
     ∃ entries,
       log = header owner :: entries
       ∧ ∀ e, e ∈ entries → is_Some (entryKey e))
  ∧ (log = [header owner]
     ↔ ¬ (oldMap = None ∧ newMap = None)
       ∧ entriesOf oldMap = entriesOf newMap).
Proof.
  simpl. rewrite printDifferences_unfold. case_decide as Hnil; split_and!.
  - done.
  - done.
  - split; [done|]. by intros [? _].
  - split; [done|]. by intros.
  - intros _. eexists. split; [done|]. apply keyEntries_keyed.
  - rewrite <-keyEntries_nil. split.
    + by intros [= ->].
    + by intros [_ ->].
Qed.

(** X14. Each key is reported at most once, and the keys reported are
    exactly those at which the two maps differ. *)
Theorem printDifferences_keys_once owner oldMap newMap :
  NoDup (omap entryKey (printDifferences owner oldMap newMap))
  ∧ ∀ key,
      Some key ∈ entryKey <$> printDifferences owner oldMap newMap
      ↔ entriesOf oldMap !! key ≠ entriesOf newMap !! key.
Proof.
  split; [|apply printDifferences_keys].
  rewrite printDifferences_unfold. case_decide; [constructor|].
  simpl. apply NoDup_keyEntries.
Qed.

Context `{Unmarshal}.

(** X15. The traced handler answers as the handler does.  It logs
    "No significant differences found.", and nothing else, exactly when it
    denies the update, and it logs nothing for a call that fails or does
    not pass the filter. *)
Theorem trace_of_denial body elapsed ms :
  let out := (handleAdmissionReview body elapsed ms).1 in
  let log := (handleAdmissionReviewTraced body elapsed ms).2 in
  (handleAdmissionReviewTraced body elapsed ms).1
    = handleAdmissionReview body elapsed ms
  ∧ (resp_Allowed <$> responseOf out = Some false
     ↔ log = [Debug "No significant differences found."])
  ∧ (resp_Allowed <$> responseOf out = Some false
     ↔ Debug "No significant differences found." ∈ log)
  ∧ (errored out = true ∨ watched body = false → log = []).
Proof.
  simpl. split; [apply traced_erase|].
  assert (∀ a b : gmap string value,
    bool_decide (sectionsEqual a b) = false →
    Debug "No significant differences found." ∉ updateTrace a b) as Hno.
  { intros a b Hne He. unfold updateTrace in He. rewrite Hne in He.
    unfold printMetadataDifferences, printSpecDifferences,
      printStatusDifferences in He.
    rewrite !elem_of_app in He.
    destruct He as [He|[He|He]];
      (destruct (negb _); [|by apply elem_of_nil in He]);
      rewrite printDifferences_unfold in He;
      (case_decide; [by apply elem_of_nil in He|]);
      apply elem_of_cons in He as [[=]|He];
      by apply keyEntries_keyed in He as [? [=]]. }
  destruct (update_or_silent body elapsed ms)
    as [(b & request & oldObj & newObj & -> & Hupdate)|Hsilent].
  - rewrite (traced_update _ _ _ _ _ _ Hupdate).
    rewrite (handle_watchedUpdate _ _ _ _ _ _ Hupdate). simpl.
    destruct (watchedUpdate_watched _ _ _ _ Hupdate) as [_ Hw].
    destruct (bool_decide (sectionsEqual (normalize oldObj) (normalize newObj)))
      eqn:Heq; simpl.
    + unfold updateTrace. rewrite Heq. split_and!; try done.
      * split; [intros _|done]. by apply list_elem_of_singleton.
      * intros [[=]|Hw']. congruence.
    + specialize (Hno _ _ Heq). split_and!.
      * split; [done|]. intros Hlog. rewrite Hlog in Hno.
        destruct Hno. by apply list_elem_of_singleton.
      * split; [done|]. intros Hin. by destruct Hno.
      * intros [[=]|Hw']. congruence.
  - rewrite (traced_silent _ _ _ Hsilent). rewrite elem_of_nil.
    pose proof (handle_cases body elapsed ms) as Hcases.
    destruct (handleAdmissionReview body elapsed ms) as [out ms1].
    simpl in *.
    destruct Hcases as [[Herr ->]|[(Hw & -> & request & _ & ->)
                                  |(Hw & request & changed & _ & -> & _)]].
    + destruct out; try done; split_and!; done.
    + split_and!; done.
    + destruct Hsilent as [[=]|Hw']. congruence.
Qed.

(** X16. In the trace of a watched update a key is reported exactly when
    old and new differ at that key in "metadata", "spec" or "status" and
    the key is not volatile there. *)
Theorem trace_reports_differences body request oldObj newObj elapsed ms key :
  watchedUpdate body request oldObj newObj →
  Some key ∈ entryKey <$> (handleAdmissionReviewTraced (Some body) elapsed ms).2
  ↔ ∃ sec, tracked sec ∧ volatile sec key = false
           ∧ path oldObj sec key ≠ path newObj sec key.
Proof.
  intros Hupdate. rewrite (traced_update _ _ _ _ _ _ Hupdate).
  rewrite updateTrace_keys. f_equiv. intros sec. f_equiv.
  rewrite !path_normalize. destruct (volatile sec key).
  - split; [by intros []|by intros [[=] _]].
  - split; [done|by intros [_ ?]].
Qed.
End further_trace.

(** ** The further properties on the scenarios *)

Ltac watched_update :=
  lazymatch goal with
  | |- watchedUpdate _ ?request _ _ =>
      split; [exists (reviewFor request); split; by_evaluation
             |split_and!; by_evaluation]
  end.

Ltac differ_by_evaluation :=
  lazymatch goal with
  | |- ?x ≠ ?y => apply (bool_decide_eq_false_1 (x = y)); by_evaluation
  end.

Lemma spec_difference_allowed_witness :
  let old := json "{'metadata': {}, 'spec': {'project': 'default'}}" in
  let new := json "{'metadata': {}, 'spec': {'project': 'default', 'source': 'git'}}" in
  handleAdmissionReview (H:=refjson.decoder)
    (Some (reviewBody "uid-spec" "Application" "UPDATE" old new)) 1%Qc noMetrics
  = (HttpOK (reviewWith (allowed "uid-spec")),
     Observe "true" 1%Qc (Inc "true" noMetrics)).
Proof.
  pose (old := json "{'metadata': {}, 'spec': {'project': 'default'}}").
  pose (new := json "{'metadata': {}, 'spec': {'project': 'default', 'source': 'git'}}").
  refine (spec_difference_allowed (H:=refjson.decoder)
    (reviewBody "uid-spec" "Application" "UPDATE" old new)
    (requestFor "uid-spec" "Application" "UPDATE" old new)
    (tree old) (tree new) 1%Qc noMetrics _ _).
  - watched_update.
  - differ_by_evaluation.
Defined.

Lemma nonvolatile_difference_allowed_witness :
  handleAdmissionReview (H:=refjson.decoder)
    (Some scenarioStatusChange) 1%Qc noMetrics
  = (HttpOK (reviewWith (allowed "test-uid-status-sync-revision-change")),
     Observe "true" 1%Qc (Inc "true" noMetrics)).
Proof.
  pose (old := json "{'metadata': {}, 'spec': {}, 'status': {'uid': 'abc123'}}").
  pose (new := json "{'metadata': {}, 'spec': {}, 'status': {'uid': 'def456'}}").
  refine (nonvolatile_difference_allowed (H:=refjson.decoder)
    scenarioStatusChange
    (requestFor "test-uid-status-sync-revision-change" "Application" "UPDATE"
       old new)
    (tree old) (tree new) 1%Qc noMetrics "status" "uid" _ _ _ _).
  - watched_update.
  - right; right; reflexivity.
  - by_evaluation.
  - differ_by_evaluation.
Defined.

Lemma decision_symmetric_witness :
  let a := json "{'metadata': {}, 'spec': {}, 'status': {'uid': 'abc123'}}" in
  let b := json "{'metadata': {}, 'spec': {}, 'status': {'uid': 'def456'}}" in
  ∃ changed : bool,
    handleAdmissionReview (H:=refjson.decoder)
      (Some (reviewBody "uid-forth" "Application" "UPDATE" a b)) 1%Qc noMetrics
    = (HttpOK (reviewWith
         (if changed then allowed "uid-forth" else denied "uid-forth")),
       Observe (fmt_bool changed) 1%Qc (Inc (fmt_bool changed) noMetrics))
    ∧ handleAdmissionReview (H:=refjson.decoder)
        (Some (reviewBody "uid-back" "Application" "UPDATE" b a)) 1%Qc noMetrics
      = (HttpOK (reviewWith
           (if changed then allowed "uid-back" else denied "uid-back")),
         Observe (fmt_bool changed) 1%Qc (Inc (fmt_bool changed) noMetrics)).
Proof.
  pose (a := json "{'metadata': {}, 'spec': {}, 'status': {'uid': 'abc123'}}").
  pose (b := json "{'metadata': {}, 'spec': {}, 'status': {'uid': 'def456'}}").
  refine (decision_symmetric (H:=refjson.decoder)
    (reviewBody "uid-forth" "Application" "UPDATE" a b)
    (requestFor "uid-forth" "Application" "UPDATE" a b)
    (reviewBody "uid-back" "Application" "UPDATE" b a)
    (requestFor "uid-back" "Application" "UPDATE" b a)
    (tree a) (tree b) 1%Qc noMetrics _ _); watched_update.
Defined.

Lemma denial_transitive_witness :
  let a := json "{'metadata': {'name': 'app', 'generation': 1}}" in
  let c := json "{'metadata': {'name': 'app', 'generation': 3, 'managedFields': []}}" in
  (handleAdmissionReview (H:=refjson.decoder)
     (Some (reviewBody "uid-ac" "Application" "UPDATE" a c)) 1%Qc noMetrics).1
  = HttpOK (reviewWith (denied "uid-ac")).
Proof.
  pose (a := json "{'metadata': {'name': 'app', 'generation': 1}}").
  pose (b := json "{'metadata': {'name': 'app', 'generation': 2}}").
  pose (c := json "{'metadata': {'name': 'app', 'generation': 3, 'managedFields': []}}").
  refine (denial_transitive (H:=refjson.decoder)
    (reviewBody "uid-ab" "Application" "UPDATE" a b)
    (requestFor "uid-ab" "Application" "UPDATE" a b)
    (reviewBody "uid-bc" "Application" "UPDATE" b c)
    (requestFor "uid-bc" "Application" "UPDATE" b c)
    (reviewBody "uid-ac" "Application" "UPDATE" a c)
    (requestFor "uid-ac" "Application" "UPDATE" a c)
    (tree a) (tree b) (tree c) 1%Qc noMetrics _ _ _ _ _);
    try watched_update; by_evaluation.
Defined.

Lemma histogram_matches_counter_witness :
  let calls :=
    [(Some scenarioNoop, 1%Qc); (Some scenarioStatusChange, 1%Qc);
     (Some scenarioCreate, 1%Qc); (Some scenarioMalformed, 1%Qc);
     (Some scenarioVolatile, 1%Qc)] in
  observations (serve (H:=refjson.decoder) calls noMetrics).2 "true"
    = counter (serve (H:=refjson.decoder) calls noMetrics).2 "true"
  ∧ observations (serve (H:=refjson.decoder) calls noMetrics).2 "false"
    = counter (serve (H:=refjson.decoder) calls noMetrics).2 "false".
Proof.
  intros calls.
  assert (∀ label, observations noMetrics label = counter noMetrics label)
    as Hempty.
  { intros label. unfold observations, counter. simpl.
    by rewrite !lookup_empty. }
  split;
    apply (histogram_matches_counter (H:=refjson.decoder) calls noMetrics Hempty).
Defined.

Lemma error_statuses_witness :
  watched (H:=refjson.decoder) (Some scenarioNoOldObject) = true.
Proof.
  destruct (error_statuses (H:=refjson.decoder) (Some scenarioNoOldObject)
    1%Qc noMetrics "failed to parse old object" 500)
    as [([=] & _)|[((b & [= <-] & Hb) & _)|(Hw & _)]].
  - by_evaluation.
  - vm_compute in Hb. discriminate Hb.
  - exact Hw.
Defined.

Lemma response_shapes_witness :
  ∃ request,
    requestOf (H:=refjson.decoder) (Some scenarioNoop) = Some request
    ∧ (reviewWith (denied "uuid") = reviewWith (allowed (req_UID request))
       ∨ (watched (H:=refjson.decoder) (Some scenarioNoop) = true
          ∧ reviewWith (denied "uuid") = reviewWith (denied (req_UID request)))).
Proof.
  refine (response_shapes (H:=refjson.decoder) (Some scenarioNoop)
    1%Qc noMetrics (reviewWith (denied "uuid")) _).
  by_evaluation.
Defined.

Lemma trace_reports_differences_witness :
  Some "uid" ∈ entryKey <$>
    (@handleAdmissionReviewTraced canonicalRange refjson.decoder
       (Some scenarioStatusChange) 1%Qc noMetrics).2.
Proof.
  pose (old := json "{'metadata': {}, 'spec': {}, 'status': {'uid': 'abc123'}}").
  pose (new := json "{'metadata': {}, 'spec': {}, 'status': {'uid': 'def456'}}").
  refine (proj2 (@trace_reports_differences canonicalRange refjson.decoder
    scenarioStatusChange
    (requestFor "test-uid-status-sync-revision-change" "Application" "UPDATE"
       old new)
    (tree old) (tree new) 1%Qc noMetrics "uid" _) _).
  - watched_update.
  - exists "status". split_and!.
    + right; right; reflexivity.
    + by_evaluation.
    + differ_by_evaluation.
Defined.

(** The trace of the status change of the test suite, and of an update
    that sets an empty "metadata" where there was none. *)
Example trace_StatusSyncRevisionChange :
  (@handleAdmissionReviewTraced canonicalRange refjson.decoder
     (Some scenarioStatusChange) 1%Qc noMetrics).2
  = [header "Status";
     KeyChanged "uid" (VString "abc123") (VString "def456")].
Proof. by_evaluation. Qed.

Example trace_empty_section_added :
  (@handleAdmissionReviewTraced canonicalRange refjson.decoder
     (Some (reviewBody "uid-empty" "Application" "UPDATE"
              (json "{'spec': {}}") (json "{'metadata': {}, 'spec': {}}")))
     1%Qc noMetrics).2
  = [header "Metadata"].
Proof. by_evaluation. Qed.

Example trace_scalar_sections :
  (@handleAdmissionReviewTraced canonicalRange refjson.decoder
     (Some (reviewBody "uid-scalar" "Application" "UPDATE"
              (json "{'spec': 'one'}") (json "{'spec': 'two'}")))
     1%Qc noMetrics)
  = (HttpOK (reviewWith (allowed "uid-scalar")),
     Observe "true" 1%Qc (Inc "true" noMetrics), []).
Proof. by_evaluation. Qed.
